(** * Porter preview environments: finalize handler and provisioning handlers

    A shallow embedding of
    - [api/server/handlers/environment/finalize_deployment.go]
      ([FinalizeDeploymentHandler.ServeHTTP], [isGithubPRClosed]), and
    - the provisioning handlers of package [api]
      ([HandleProvisionAWSECRInfra], [HandleGetProvisioningLogs]),
    followed by the properties of the orchestration specification that
    these handlers decide.

    Go strings are byte strings and are modelled by [string]; [uint] values
    by [N], [int]/[int64] values by [Z] with the conversions written out;
    a Go [error] by its message. *)

From Stdlib Require Import String Ascii ZArith NArith List Bool Lia DecimalString.
Import ListNotations.
Open Scope string_scope.

(** ** Go values *)

Definition error := string.

(** A Go call returning [(value, err)]. *)
Inductive result (A : Type) : Type :=
| Ok (a : A)
| Fail (err : error).
Arguments Ok {A} a.
Arguments Fail {A} err.

(** [uint(x)] for an [int64] [x]: reduction modulo 2^64. *)
Definition uint (x : Z) : N := Z.to_N (x mod 2 ^ 64)%Z.

(** [int(x)] for a [uint] [x]: the two's complement reading of the 64 bits. *)
Definition int (x : N) : Z :=
  let z := (Z.of_N x mod 2 ^ 64)%Z in
  if (z <? 2 ^ 63)%Z then z else (z - 2 ^ 64)%Z.

(** The line feed, written backslash-n in Go literals. *)
Definition nl : string := String "010" EmptyString.

(** The three UTF-8 bytes of the check mark that opens the comment's
    second line. *)
Definition check_mark : string :=
  String "226" (String "156" (String "133" EmptyString)).

(** *** Package [fmt] *)
Module fmt.

Inductive operand : Type :=
| Str (s : string)
| Uint (n : N)
| Err (e : error).

(** [%d] of an unsigned integer. *)
Definition decimal (n : N) : string := NilZero.string_of_uint (N.to_uint n).

(** One verb applied to one operand.  [%s] prints a string, [%d] an
    integer, [%s], [%v] and [%w] the message of an error; a verb that
    does not fit its operand prints Go's bad-verb notice. *)
Definition formatOperand (verb : ascii) (a : operand) : string :=
  match a with
  | Str s =>
      if (verb =? "s")%char || (verb =? "v")%char then s
      else "%!" ++ String verb ("(string=" ++ s ++ ")")
  | Uint n =>
      if (verb =? "d")%char || (verb =? "v")%char then decimal n
      else "%!" ++ String verb ("(uint=" ++ decimal n ++ ")")
  | Err e => e
  end.

(** [fmt.Sprintf] for the verbs the handlers use.  A verb without an
    operand prints [%!v(MISSING)] as in Go; operands left over are not
    reported (no call of the handlers has any). *)
Fixpoint Sprintf (format : string) (args : list operand) : string :=
  match format with
  | EmptyString => EmptyString
  | String "%" (String verb rest) =>
      match args with
      | a :: args' => formatOperand verb a ++ Sprintf rest args'
      | [] => "%!" ++ String verb ("(MISSING)" ++ Sprintf rest [])
      end
  | String c rest => String c (Sprintf rest args)
  end.

(** [fmt.Errorf]: the error whose message is the formatted text. *)
Definition Errorf (format : string) (args : list operand) : error :=
  Sprintf format args.

End fmt.

(** ** Package [types] *)

(** Modelled from the spec: the type [types.DeploymentStatus] and its
    constant [types.DeploymentStatusCreated] are declared outside these
    sources; section 4.2 gives the states of the Deployment state machine. *)
Inductive DeploymentStatus : Type :=
| DeploymentStatusCreating
| DeploymentStatusCreated
| DeploymentStatusFailed
| DeploymentStatusTimedOut
| DeploymentStatusClosing
| DeploymentStatusClosed.

Module SuccessfulResource.
Record t : Type := mk {
  ReleaseName : string;
  ReleaseType : string
}.
End SuccessfulResource.

Module FinalizeDeploymentRequest.
Record t : Type := mk {
  Namespace : string;
  Subdomain : string;
  SuccessfulResources : list SuccessfulResource.t
}.
End FinalizeDeploymentRequest.

(** ** Package [models] *)

Module Project.
Record t : Type := mk { ID : N }.
End Project.

Module Cluster.
Record t : Type := mk { ID : N; Name : string }.
End Cluster.

Module GithubAppInstallation.
Record t : Type := mk { InstallationID : Z }.
End GithubAppInstallation.

Module Environment.
Record t : Type := mk {
  ID : N;
  ProjectID : N;
  ClusterID : N;
  GitInstallationID : N;
  Name : string;
  GitRepoOwner : string;
  GitRepoName : string
}.
End Environment.

Module Deployment.
Record t : Type := mk {
  ID : N;
  EnvironmentID : N;
  Namespace : string;
  Status : DeploymentStatus;
  Subdomain : string;
  PullRequestID : N;
  GHDeploymentID : Z;
  RepoOwner : string;
  RepoName : string;
  CommitSHA : string;
  PRBranchFrom : string
}.

(** [depl.Subdomain = s] *)
Definition set_Subdomain (s : string) (d : t) : t :=
  mk (ID d) (EnvironmentID d) (Namespace d) (Status d) s (PullRequestID d)
     (GHDeploymentID d) (RepoOwner d) (RepoName d) (CommitSHA d) (PRBranchFrom d).

(** [depl.Status = st] *)
Definition set_Status (st : DeploymentStatus) (d : t) : t :=
  mk (ID d) (EnvironmentID d) (Namespace d) st (Subdomain d) (PullRequestID d)
     (GHDeploymentID d) (RepoOwner d) (RepoName d) (CommitSHA d) (PRBranchFrom d).

(** The fields of a row other than [Subdomain] and [Status]. *)
Definition frame (d : t) : N * N * string * N * Z * string * string * string * string :=
  (ID d, EnvironmentID d, Namespace d, PullRequestID d, GHDeploymentID d,
   RepoOwner d, RepoName d, CommitSHA d, PRBranchFrom d).
End Deployment.

(** Modelled from the spec: [types.Deployment] and
    the method [ToDeploymentType] of [models.Deployment] are declared outside these
    sources; section 6 says finalize returns the updated Deployment
    representation, so the view carries the attributes of the Deployment
    it is taken from. *)
Module DeploymentView.
Record t : Type := mk {
  ID : N;
  EnvironmentID : N;
  Namespace : string;
  Status : DeploymentStatus;
  Subdomain : string;
  PullRequestID : N;
  GHDeploymentID : Z;
  RepoOwner : string;
  RepoName : string;
  CommitSHA : string;
  PRBranchFrom : string
}.
End DeploymentView.

Definition ToDeploymentType (d : Deployment.t) : DeploymentView.t :=
  DeploymentView.mk
    (Deployment.ID d) (Deployment.EnvironmentID d) (Deployment.Namespace d)
    (Deployment.Status d) (Deployment.Subdomain d) (Deployment.PullRequestID d)
    (Deployment.GHDeploymentID d) (Deployment.RepoOwner d) (Deployment.RepoName d)
    (Deployment.CommitSHA d) (Deployment.PRBranchFrom d).

(** ** Package [apierrors] *)

Definition StatusNotFound : Z := 404.
Definition StatusConflict : Z := 409.
Definition StatusInternalServerError : Z := 500.

(** The two request errors the handler builds: [NewErrInternal(err)] and
    [NewErrPassThroughToClient(err, statusCode)]. *)
Inductive RequestError : Type :=
| NewErrInternal (err : error)
| NewErrPassThroughToClient (err : error) (statusCode : Z).

(** The error classes of section 7. *)
Inductive ErrorClass : Type :=
| NotFound
| Conflict
| Internal
| OtherClient.

(** An internal error is of class [Internal]; an error passed through to
    the client is classified by the HTTP status it carries. *)
Definition classOf (e : RequestError) : ErrorClass :=
  match e with
  | NewErrInternal _ => Internal
  | NewErrPassThroughToClient _ code =>
      if (code =? StatusNotFound)%Z then NotFound
      else if (code =? StatusConflict)%Z then Conflict
      else if (code =? StatusInternalServerError)%Z then Internal
      else OtherClient
  end.

(** What the handler has written when it returns. *)
Inductive Response : Type :=
| HandledByHelper                      (* a helper replied and reported [!ok] *)
| HandleAPIError (e : RequestError)    (* [c.HandleAPIError(w, r, e)] *)
| WriteResult (v : DeploymentView.t).  (* [c.WriteResult(w, r, v)] *)

Definition failsWith (cls : ErrorClass) (r : Response) : Prop :=
  exists e, r = HandleAPIError e /\ classOf e = cls.

Definition isSuccess (r : Response) : bool :=
  match r with WriteResult _ => true | _ => false end.

(** ** Package [github] (the pull-request system) *)

Module DeploymentStatusRequest.
Record t : Type := mk { State : string; EnvironmentURL : string }.
End DeploymentStatusRequest.

Module PullRequest.
Record t : Type := mk { State : option string }.
(** The nil-safe getter. *)
Definition GetState (p : t) : string :=
  match State p with Some s => s | None => "" end.
End PullRequest.

Module WorkflowRun.
Record t : Type := mk { HTMLURL : option string }.
Definition GetHTMLURL (w : t) : string :=
  match HTMLURL w with Some s => s | None => "" end.
End WorkflowRun.

(** The answers of the pull-request system to the three client calls of
    the handler.  Each is called at most once in a request, so a function
    of the arguments is as general as a stateful service. *)
Module Client.
Record t : Type := mk {
  Repositories_CreateDeploymentStatus :
    string -> string -> Z -> DeploymentStatusRequest.t -> option error;
  PullRequests_Get : string -> string -> Z -> result PullRequest.t;
  Issues_CreateComment : string -> string -> Z -> string -> option error
}.
End Client.

(** The calls sent to the pull-request system, in the order they are made. *)
Inductive GithubCall : Type :=
| CreateDeploymentStatus (owner repo : string) (deployment : Z)
    (request : DeploymentStatusRequest.t)
| GetPullRequest (owner repo : string) (number : Z)
| GetLatestWorkflowRun (owner repo filename branch : string)
| CreateComment (owner repo : string) (number : Z) (body : string).

(** ** The repository interface [repository.EnvironmentRepository] *)

Class EnvironmentRepository (R : Type) : Type := {
  ReadEnvironment : R -> N -> N -> N -> string -> string -> result Environment.t;
  ReadDeployment : R -> N -> string -> result Deployment.t;
  UpdateDeployment : R -> Deployment.t -> result (Deployment.t * R)
}.

(** ** Package [environment]: the finalize handler *)

Module Config.
Record t : Type := mk { ServerURL : string }.
End Config.

(** The text rendered in place of an empty subdomain. *)
Definition ingressDisabled : string := "*Ingress is disabled for this deployment*".

Definition commentFormat : string :=
  "## Porter Preview Environments" ++ nl ++
  check_mark ++ " All changes deployed successfully" ++ nl ++
  "||Deployment Information|" ++ nl ++
  "|-|-|" ++ nl ++
  "| Latest SHA | [`%s`](https://github.com/%s/%s/commit/%s) |" ++ nl ++
  "| Live URL | %s |" ++ nl ++
  "| Build Logs | %s |" ++ nl ++
  "| Porter Deployments URL | %s/preview-environments/details/%s?environment_id=%d |".

Section CommentBody.
Variable config : Config.t.
Variable project : Project.t.
Variable cluster : Cluster.t.
Variable depl : Deployment.t.

(** The table of the comment (source lines 137-148). *)
Definition commentTable (workflowRun : WorkflowRun.t) : string :=
  fmt.Sprintf commentFormat
    [fmt.Str (Deployment.CommitSHA depl); fmt.Str (Deployment.RepoOwner depl);
     fmt.Str (Deployment.RepoName depl); fmt.Str (Deployment.CommitSHA depl);
     fmt.Str (Deployment.Subdomain depl);
     fmt.Str (WorkflowRun.GetHTMLURL workflowRun);
     fmt.Str (Config.ServerURL config); fmt.Str (Deployment.Namespace depl);
     fmt.Uint (Deployment.EnvironmentID depl)].

(** The line of a resource whose release type is ["job"]. *)
Definition jobLink (res : SuccessfulResource.t) : string :=
  fmt.Sprintf ("- [`%s`](%s/jobs/%s/%s/%s?project_id=%d)" ++ nl)
    [fmt.Str (SuccessfulResource.ReleaseName res); fmt.Str (Config.ServerURL config);
     fmt.Str (Cluster.Name cluster); fmt.Str (Deployment.Namespace depl);
     fmt.Str (SuccessfulResource.ReleaseName res); fmt.Uint (Project.ID project)].

(** The line of any other resource. *)
Definition applicationLink (res : SuccessfulResource.t) : string :=
  fmt.Sprintf ("- [`%s`](%s/applications/%s/%s/%s?project_id=%d)" ++ nl)
    [fmt.Str (SuccessfulResource.ReleaseName res); fmt.Str (Config.ServerURL config);
     fmt.Str (Cluster.Name cluster); fmt.Str (Deployment.Namespace depl);
     fmt.Str (SuccessfulResource.ReleaseName res); fmt.Uint (Project.ID project)].

(** The body of the loop over the successful resources. *)
Definition appendResource (commentBody : string) (res : SuccessfulResource.t) : string :=
  if (SuccessfulResource.ReleaseType res =? "job")%string
  then commentBody ++ jobLink res
  else commentBody ++ applicationLink res.

Definition resourcesHeading : string :=
  nl ++ "#### Successfully deployed resources" ++ nl.

(** The comment posted to the pull request (source lines 137-164). *)
Definition commentBody (workflowRun : WorkflowRun.t)
    (resources : list SuccessfulResource.t) : string :=
  let commentBody := commentTable workflowRun in
  if (0 <? length resources)%nat
  then fold_left appendResource resources (commentBody ++ resourcesHeading)
  else commentBody.
End CommentBody.

(** The name of the workflow file whose latest run is looked up. *)
Definition workflowFilename (env : Environment.t) : string :=
  fmt.Sprintf "porter_%s_env.yml" [fmt.Str (Environment.Name env)].

Section Handler.
Context {R : Type} `{EnvironmentRepository R}.

(** The backing store and the calls sent so far. *)
Record State : Type := mkState { repo : R; sent : list GithubCall }.

(** A handler step either goes on with a value or has replied and
    returned. *)
Definition Handler (A : Type) : Type := State -> (Response + A) * State.

Definition ret {A} (a : A) : Handler A := fun st => (inr a, st).

Definition bind {A B} (m : Handler A) (k : A -> Handler B) : Handler B :=
  fun st =>
    match m st with
    | (inl r, st') => (inl r, st')
    | (inr a, st') => k a st'
    end.

(** Reply and return. *)
Definition reply {A} (r : Response) : Handler A := fun st => (inl r, st).

Definition getRepo : Handler R := fun st => (inr (repo st), st).

Definition putRepo (r : R) : Handler unit :=
  fun st => (inr tt, mkState r (sent st)).

Definition send (c : GithubCall) : Handler unit :=
  fun st => (inr tt, mkState (repo st) (sent st ++ [c])).

(** [if !ok { return }] after a helper that replies by itself. *)
Definition orReturn {A} (o : option A) : Handler A :=
  match o with
  | Some a => ret a
  | None => reply HandledByHelper
  end.

(** [if err != nil { c.HandleAPIError(w, r, wrap(err)); return }] *)
Definition check {A} (x : result A) (wrap : error -> RequestError) : Handler A :=
  match x with
  | Ok a => ret a
  | Fail err => reply (HandleAPIError (wrap err))
  end.

Definition checkErr (x : option error) (wrap : error -> RequestError) : Handler unit :=
  match x with
  | None => ret tt
  | Some err => reply (HandleAPIError (wrap err))
  end.
End Handler.

Arguments State R : clear implicits.
Arguments Handler R A : clear implicits.

Declare Scope handler_scope.
Delimit Scope handler_scope with handler.
Notation "x <- c1 ;; c2" := (bind c1 (fun x => c2))
  (at level 61, c1 at next level, right associativity) : handler_scope.
Notation "' pat <- c1 ;; c2" := (bind c1 (fun x => match x with pat => c2 end))
  (at level 61, pat pattern, c1 at next level, right associativity) : handler_scope.
Notation "c1 ;; c2" := (bind c1 (fun _ => c2))
  (at level 61, right associativity) : handler_scope.

Section ServeHTTP.
Context {R : Type} `{EnvironmentRepository R}.
(** Helpers that live in other files: the client of the installation of
    an Environment, and [commonutils.GetLatestWorkflowRun]. *)
Variable getGithubClientFromEnvironment :
  Config.t -> Environment.t -> result Client.t.
Variable commonutils_GetLatestWorkflowRun :
  Client.t -> string -> string -> string -> string -> result WorkflowRun.t.
Open Scope handler_scope.

Definition isGithubPRClosed (client : Client.t) (owner name : string)
    (prNumber : Z) : Handler R (result bool) :=
  send (GetPullRequest owner name prNumber) ;;
  match Client.PullRequests_Get client owner name prNumber with
  | Fail err => ret (Fail err)
  | Ok ghPR => ret (Ok (PullRequest.GetState ghPR =? "closed")%string)
  end.

(** [FinalizeDeploymentHandler.ServeHTTP].  [params] is the result of
    [commonutils.GetOwnerAndNameParams] and [decoded] that of
    [c.DecodeAndValidate]; both helpers reply by themselves when they
    fail. *)
Definition ServeHTTP (config : Config.t)
    (ga : GithubAppInstallation.t) (project : Project.t) (cluster : Cluster.t)
    (params : option (string * string))
    (decoded : option FinalizeDeploymentRequest.t) : Handler R Response :=
  '(owner, name) <- orReturn params ;;
  request <- orReturn decoded ;;
  (* read the environment to get the environment id *)
  r <- getRepo ;;
  env <- check (ReadEnvironment r (Project.ID project) (Cluster.ID cluster)
                  (uint (GithubAppInstallation.InstallationID ga)) owner name)
               NewErrInternal ;;
  (* read the deployment *)
  depl <- check (ReadDeployment r (Environment.ID env)
                   (FinalizeDeploymentRequest.Namespace request))
                NewErrInternal ;;
  let depl := Deployment.set_Subdomain (FinalizeDeploymentRequest.Subdomain request) depl in
  let depl := Deployment.set_Status DeploymentStatusCreated depl in
  (* update the deployment *)
  '(depl, r') <- check (UpdateDeployment r depl) NewErrInternal ;;
  putRepo r' ;;
  client <- check (getGithubClientFromEnvironment config env) NewErrInternal ;;
  (* Create new deployment status to indicate deployment is ready *)
  let state := "success" in
  let env_url := Deployment.Subdomain depl in
  let deploymentStatusRequest := DeploymentStatusRequest.mk state env_url in
  send (CreateDeploymentStatus (Environment.GitRepoOwner env) (Environment.GitRepoName env)
          (Deployment.GHDeploymentID depl) deploymentStatusRequest) ;;
  checkErr (Client.Repositories_CreateDeploymentStatus client
              (Environment.GitRepoOwner env) (Environment.GitRepoName env)
              (Deployment.GHDeploymentID depl) deploymentStatusRequest)
           NewErrInternal ;;
  (* add a check for the PR to be open before creating a comment *)
  closed <- isGithubPRClosed client owner name (int (Deployment.PullRequestID depl)) ;;
  prClosed <- check closed
    (fun err => NewErrPassThroughToClient
       (fmt.Errorf "error fetching details of github PR for deployment ID: %d. Error: %w"
          [fmt.Uint (Deployment.ID depl); fmt.Err err])
       StatusConflict) ;;
  (if prClosed : bool
   then reply (HandleAPIError
                 (NewErrPassThroughToClient (fmt.Errorf "Github PR has been closed" [])
                    StatusConflict))
   else ret tt) ;;
  send (GetLatestWorkflowRun (Deployment.RepoOwner depl) (Deployment.RepoName depl)
          (workflowFilename env) (Deployment.PRBranchFrom depl)) ;;
  workflowRun <- check (commonutils_GetLatestWorkflowRun client
                          (Deployment.RepoOwner depl) (Deployment.RepoName depl)
                          (workflowFilename env) (Deployment.PRBranchFrom depl))
                       NewErrInternal ;;
  let depl :=
    if (Deployment.Subdomain depl =? "")%string
    then Deployment.set_Subdomain ingressDisabled depl
    else depl in
  (* write comment in PR *)
  let commentBody :=
    commentBody config project cluster depl workflowRun
      (FinalizeDeploymentRequest.SuccessfulResources request) in
  send (CreateComment (Environment.GitRepoOwner env) (Environment.GitRepoName env)
          (int (Deployment.PullRequestID depl)) commentBody) ;;
  checkErr (Client.Issues_CreateComment client
              (Environment.GitRepoOwner env) (Environment.GitRepoName env)
              (int (Deployment.PullRequestID depl)) commentBody)
           NewErrInternal ;;
  ret (WriteResult (ToDeploymentType depl)).

(** One request served against the store [r]: the reply, the store
    afterwards, and the calls sent to the pull-request system. *)
Definition finalize (config : Config.t)
    (ga : GithubAppInstallation.t) (project : Project.t) (cluster : Cluster.t)
    (params : option (string * string))
    (decoded : option FinalizeDeploymentRequest.t) (r : R)
    : Response * State R :=
  match ServeHTTP config ga project cluster params decoded (mkState r []) with
  | (inl resp, st) => (resp, st)
  | (inr resp, st) => (resp, st)
  end.
End ServeHTTP.

(** ** An in-memory backing store *)

(** Modelled from the spec: the implementation of the repository is
    outside these sources.  Section 6 gives its operations: read an
    Environment by (project, cluster, installation, owner, name), read a
    Deployment by (environment, namespace), update a Deployment by ID.
    The store is the two tables; a read returns the first matching row,
    an update replaces the row carrying the ID of the given Deployment
    and fails when there is none. *)
Module MemRepo.
Record t : Type := mk {
  environments : list Environment.t;
  deployments : list Deployment.t
}.

Definition recordNotFound : error := "record not found".

Definition isEnvironment (projectID clusterID gitInstallationID : N)
    (owner name : string) (e : Environment.t) : bool :=
  (Environment.ProjectID e =? projectID)%N &&
  (Environment.ClusterID e =? clusterID)%N &&
  (Environment.GitInstallationID e =? gitInstallationID)%N &&
  (Environment.GitRepoOwner e =? owner)%string &&
  (Environment.GitRepoName e =? name)%string.

Definition isDeployment (environmentID : N) (namespace : string)
    (d : Deployment.t) : bool :=
  (Deployment.EnvironmentID d =? environmentID)%N &&
  (Deployment.Namespace d =? namespace)%string.

Definition hasID (id : N) (d : Deployment.t) : bool :=
  (Deployment.ID d =? id)%N.

Definition readEnvironment (s : t) (projectID clusterID gitInstallationID : N)
    (owner name : string) : result Environment.t :=
  match find (isEnvironment projectID clusterID gitInstallationID owner name)
             (environments s) with
  | Some e => Ok e
  | None => Fail recordNotFound
  end.

Definition readDeployment (s : t) (environmentID : N) (namespace : string)
    : result Deployment.t :=
  match find (isDeployment environmentID namespace) (deployments s) with
  | Some d => Ok d
  | None => Fail recordNotFound
  end.

Definition replaceRow (d x : Deployment.t) : Deployment.t :=
  if hasID (Deployment.ID d) x then d else x.

Definition updateDeployment (s : t) (d : Deployment.t)
    : result (Deployment.t * t) :=
  if existsb (hasID (Deployment.ID d)) (deployments s)
  then Ok (d, mk (environments s) (map (replaceRow d) (deployments s)))
  else Fail recordNotFound.
End MemRepo.

#[export] Instance MemRepo_EnvironmentRepository : EnvironmentRepository MemRepo.t := {
  ReadEnvironment := MemRepo.readEnvironment;
  ReadDeployment := MemRepo.readDeployment;
  UpdateDeployment := MemRepo.updateDeployment
}.

(** ** Package [api]: the provisioning handlers *)

Module Provision.

Definition StatusCreated : Z := 201.

Inductive ErrorCode : Type :=
| ErrProjectDecode
| ErrProjectValidateFields.

(** [forms.CreateECRInfra], with the fields the handler touches. *)
Module CreateECRInfra.
Record t : Type := mk { ProjectID : N; ECRName : string; AWSIntegrationID : N }.
End CreateECRInfra.

Module AWSInfra.
Record t : Type := mk { ID : N; ProjectID : N; AWSIntegrationID : N }.
End AWSInfra.

(** What a handler of package [api] does to the response writer and the
    logger, one constructor per helper it calls. *)
Inductive Effect (InfraExternal : Type) : Type :=
| handleErrorFormDecoding (err : option error) (code : ErrorCode)
| handleErrorFormValidation (err : error) (code : ErrorCode)
| handleErrorDataWrite (err : error)
| handleErrorDataRead (err : error)
| handleErrorInternal (err : error)
| LoggerInfo (msg : string)
| WriteHeader (status : Z)
| Encode (v : InfraExternal).
Arguments handleErrorFormDecoding {InfraExternal}.
Arguments handleErrorFormValidation {InfraExternal}.
Arguments handleErrorDataWrite {InfraExternal}.
Arguments handleErrorDataRead {InfraExternal}.
Arguments handleErrorInternal {InfraExternal}.
Arguments LoggerInfo {InfraExternal}.
Arguments WriteHeader {InfraExternal}.
Arguments Encode {InfraExternal}.

(** Modelled from the spec: the helpers [app.handleError...] are
    declared outside these sources.  Section 7 puts backing-store and
    substrate failures in class [Internal]; a request that cannot be
    decoded or validated is the client's error.  None of the helpers
    the handler calls reports a conflict. *)
Definition classOfEffect {X} (e : Effect X) : option ErrorClass :=
  match e with
  | handleErrorFormDecoding _ _ => Some OtherClient
  | handleErrorFormValidation _ _ => Some OtherClient
  | handleErrorDataWrite _ => Some Internal
  | handleErrorDataRead _ => Some Internal
  | handleErrorInternal _ => Some Internal
  | LoggerInfo _ => None
  | WriteHeader status =>
      if (status =? StatusConflict)%Z then Some Conflict else None
  | Encode _ => None
  end.

Section ECR.
(** Types and calls of packages outside these sources. *)
Variables AWSIntegration Agent Job InfraExternal Substrate : Type.
Variable strconv_ParseUint : string -> result N.
Variable json_Decode : CreateECRInfra.t -> result CreateECRInfra.t.
Variable validator_Struct : CreateECRInfra.t -> option error.
Variable ToAWSInfra : CreateECRInfra.t -> result AWSInfra.t.
Variable CreateAWSInfra : AWSInfra.t -> result AWSInfra.t.
Variable ReadAWSIntegration : N -> result AWSIntegration.
Variable GetAgentInClusterConfig : result Agent.
(** The execution substrate: submitting a job either is rejected or
    yields the job and the substrate with the job accepted. *)
Variable ProvisionECR :
  Agent -> Substrate -> N -> AWSIntegration -> string -> result (Job * Substrate).
Variable Externalize : AWSInfra.t -> InfraExternal.
Variable json_Encode : InfraExternal -> option error.

(** [App.HandleProvisionAWSECRInfra]: [project_id] is the URL
    parameter; the result is what was written, and the substrate
    after the call. *)
Definition HandleProvisionAWSECRInfra (project_id : string) (k : Substrate)
    : list (Effect InfraExternal) * Substrate :=
  let '(projID, err) :=
    match strconv_ParseUint project_id with
    | Ok n => (n, None)
    | Fail e => (0%N, Some e)
    end in
  match err with
  | Some _ => ([handleErrorFormDecoding err ErrProjectDecode], k)
  | None =>
  if (projID =? 0)%N then ([handleErrorFormDecoding err ErrProjectDecode], k) else
  let form := CreateECRInfra.mk projID "" 0 in
  (* decode from JSON to form value *)
  match json_Decode form with
  | Fail e => ([handleErrorFormDecoding (Some e) ErrProjectDecode], k)
  | Ok form =>
  (* validate the form *)
  match validator_Struct form with
  | Some e => ([handleErrorFormValidation e ErrProjectValidateFields], k)
  | None =>
  (* convert the form to an aws infra instance *)
  match ToAWSInfra form with
  | Fail e => ([handleErrorFormDecoding (Some e) ErrProjectDecode], k)
  | Ok infra =>
  (* handle write to the database *)
  match CreateAWSInfra infra with
  | Fail e => ([handleErrorDataWrite e], k)
  | Ok infra =>
  match ReadAWSIntegration (AWSInfra.AWSIntegrationID infra) with
  | Fail e => ([handleErrorDataRead e], k)
  | Ok awsInt =>
  (* launch provisioning pod *)
  match GetAgentInClusterConfig with
  | Fail e => ([handleErrorDataRead e], k)
  | Ok agent =>
  match ProvisionECR agent k projID awsInt (CreateECRInfra.ECRName form) with
  | Fail e => ([handleErrorInternal e], k)
  | Ok (_, k') =>
  let log := LoggerInfo (fmt.Sprintf "New aws ecr infra created: %d"
                           [fmt.Uint (AWSInfra.ID infra)]) in
  let infraExt := Externalize infra in
  match json_Encode infraExt with
  | Some e =>
      ([log; WriteHeader StatusCreated; handleErrorFormDecoding (Some e) ErrProjectDecode], k')
  | None => ([log; WriteHeader StatusCreated; Encode infraExt], k')
  end end end end end end end end end.
End ECR.

(** What [App.HandleGetProvisioningLogs] does. *)
Inductive LogsEffect (Conn : Type) : Type :=
| handleErrorUpgradeWebsocket (err : error)
| ResourceStream (streamName : string) (conn : option Conn)
| handleErrorWebsocketWrite (err : error).
Arguments handleErrorUpgradeWebsocket {Conn}.
Arguments ResourceStream {Conn}.
Arguments handleErrorWebsocketWrite {Conn}.

Section Logs.
Variable Conn : Type.
(** [chi.URLParam(r, key)], [upgrader.Upgrade(w, r, nil)] and
    [provisioner.ResourceStream(app.RedisClient, streamName, conn)]. *)
Variable URLParam : string -> string.
Variable upgrader_Upgrade : result Conn.
Variable provisioner_ResourceStream : string -> option Conn -> option error.

(** [App.HandleGetProvisioningLogs].  A failed upgrade is reported
    but the handler goes on with a nil connection. *)
Definition HandleGetProvisioningLogs : list (LogsEffect Conn) :=
  (* get path parameters *)
  let kind := URLParam "kind" in
  let projectID := URLParam "project_id" in
  let infraID := URLParam "infra_id" in
  let streamName :=
    fmt.Sprintf "%s-%s-%s" [fmt.Str kind; fmt.Str projectID; fmt.Str infraID] in
  (* upgrade to websocket. *)
  let '(conn, upgradeFailed) :=
    match upgrader_Upgrade with
    | Ok c => (Some c, [])
    | Fail err => (None, [handleErrorUpgradeWebsocket err])
    end in
  upgradeFailed ++
  ResourceStream streamName conn ::
  match provisioner_ResourceStream streamName conn with
  | Some err => [handleErrorWebsocketWrite err]
  | None => []
  end.
End Logs.

(** The streams a run of the handler attaches to. *)
Fixpoint attachedStreams {Conn} (l : list (LogsEffect Conn)) : list string :=
  match l with
  | [] => []
  | ResourceStream streamName _ :: l' => streamName :: attachedStreams l'
  | _ :: l' => attachedStreams l'
  end.

End Provision.

(** ** The exits of the finalize handler *)

Section Run.
Context {R : Type} `{EnvironmentRepository R}.
Variable getGithubClientFromEnvironment :
  Config.t -> Environment.t -> result Client.t.
Variable commonutils_GetLatestWorkflowRun :
  Client.t -> string -> string -> string -> string -> result WorkflowRun.t.
Variable config : Config.t.
Variable ga : GithubAppInstallation.t.
Variable project : Project.t.
Variable cluster : Cluster.t.
Variable params : option (string * string).
Variable decoded : option FinalizeDeploymentRequest.t.
Variable r : R.

(** The row handed to [UpdateDeployment]. *)
Definition finalized (request : FinalizeDeploymentRequest.t) (depl : Deployment.t)
    : Deployment.t :=
  Deployment.set_Status DeploymentStatusCreated
    (Deployment.set_Subdomain (FinalizeDeploymentRequest.Subdomain request) depl).

(** The Deployment as rendered in the comment and in the reply. *)
Definition rendered (depl : Deployment.t) : Deployment.t :=
  if (Deployment.Subdomain depl =? "")%string
  then Deployment.set_Subdomain ingressDisabled depl
  else depl.

Definition statusCall (env : Environment.t) (depl : Deployment.t) : GithubCall :=
  CreateDeploymentStatus (Environment.GitRepoOwner env) (Environment.GitRepoName env)
    (Deployment.GHDeploymentID depl)
    (DeploymentStatusRequest.mk "success" (Deployment.Subdomain depl)).

Definition pullRequestCall (owner name : string) (depl : Deployment.t) : GithubCall :=
  GetPullRequest owner name (int (Deployment.PullRequestID depl)).

Definition workflowCall (env : Environment.t) (depl : Deployment.t) : GithubCall :=
  GetLatestWorkflowRun (Deployment.RepoOwner depl) (Deployment.RepoName depl)
    (workflowFilename env) (Deployment.PRBranchFrom depl).

Definition commentCall (request : FinalizeDeploymentRequest.t) (env : Environment.t)
    (depl : Deployment.t) (workflowRun : WorkflowRun.t) : GithubCall :=
  CreateComment (Environment.GitRepoOwner env) (Environment.GitRepoName env)
    (int (Deployment.PullRequestID (rendered depl)))
    (commentBody config project cluster (rendered depl) workflowRun
       (FinalizeDeploymentRequest.SuccessfulResources request)).

Definition prFetchError (depl : Deployment.t) (err : error) : RequestError :=
  NewErrPassThroughToClient
    (fmt.Errorf "error fetching details of github PR for deployment ID: %d. Error: %w"
       [fmt.Uint (Deployment.ID depl); fmt.Err err])
    StatusConflict.

Definition prClosedError : RequestError :=
  NewErrPassThroughToClient (fmt.Errorf "Github PR has been closed" []) StatusConflict.

(** The request names an Environment and a Deployment of the store. *)
Definition Resolved (owner name : string) (request : FinalizeDeploymentRequest.t)
    (env : Environment.t) (depl : Deployment.t) : Prop :=
  params = Some (owner, name) /\
  decoded = Some request /\
  ReadEnvironment r (Project.ID project) (Cluster.ID cluster)
    (uint (GithubAppInstallation.InstallationID ga)) owner name = Ok env /\
  ReadDeployment r (Environment.ID env) (FinalizeDeploymentRequest.Namespace request)
    = Ok depl.

(** ... and the store accepted the update, answering [depl'] and
    becoming [r']. *)
Definition Updated owner name request env depl (depl' : Deployment.t) (r' : R) : Prop :=
  Resolved owner name request env depl /\
  UpdateDeployment r (finalized request depl) = Ok (depl', r').

(** ... and the client of the installation was obtained and the
    deployment status accepted. *)
Definition StatusSet owner name request env depl depl' r' (client : Client.t) : Prop :=
  Updated owner name request env depl depl' r' /\
  getGithubClientFromEnvironment config env = Ok client /\
  Client.Repositories_CreateDeploymentStatus client
    (Environment.GitRepoOwner env) (Environment.GitRepoName env)
    (Deployment.GHDeploymentID depl')
    (DeploymentStatusRequest.mk "success" (Deployment.Subdomain depl')) = None.

(** ... and the pull request was fetched, in state [closed] or not. *)
Definition PullRequestIs (closed : bool) owner name request env depl depl' r' client : Prop :=
  StatusSet owner name request env depl depl' r' client /\
  exists ghPR,
    Client.PullRequests_Get client owner name (int (Deployment.PullRequestID depl'))
      = Ok ghPR /\
    (PullRequest.GetState ghPR =? "closed")%string = closed.

(** ... and the latest workflow run was found. *)
Definition RunFound owner name request env depl depl' r' client
    (workflowRun : WorkflowRun.t) : Prop :=
  PullRequestIs false owner name request env depl depl' r' client /\
  commonutils_GetLatestWorkflowRun client
    (Deployment.RepoOwner depl') (Deployment.RepoName depl')
    (workflowFilename env) (Deployment.PRBranchFrom depl') = Ok workflowRun.

(** [Run resp r' calls]: the handler replies [resp], leaves the store
    [r'] and has sent [calls]; one rule per [return] of the source. *)
Inductive Run : Response -> R -> list GithubCall -> Prop :=
| run_no_params :
    params = None ->
    Run HandledByHelper r []
| run_no_request owner name :
    params = Some (owner, name) -> decoded = None ->
    Run HandledByHelper r []
| run_environment_fails owner name request err :
    params = Some (owner, name) -> decoded = Some request ->
    ReadEnvironment r (Project.ID project) (Cluster.ID cluster)
      (uint (GithubAppInstallation.InstallationID ga)) owner name = Fail err ->
    Run (HandleAPIError (NewErrInternal err)) r []
| run_deployment_fails owner name request env err :
    params = Some (owner, name) -> decoded = Some request ->
    ReadEnvironment r (Project.ID project) (Cluster.ID cluster)
      (uint (GithubAppInstallation.InstallationID ga)) owner name = Ok env ->
    ReadDeployment r (Environment.ID env) (FinalizeDeploymentRequest.Namespace request)
      = Fail err ->
    Run (HandleAPIError (NewErrInternal err)) r []
| run_update_fails owner name request env depl err :
    Resolved owner name request env depl ->
    UpdateDeployment r (finalized request depl) = Fail err ->
    Run (HandleAPIError (NewErrInternal err)) r []
| run_client_fails owner name request env depl depl' r' err :
    Updated owner name request env depl depl' r' ->
    getGithubClientFromEnvironment config env = Fail err ->
    Run (HandleAPIError (NewErrInternal err)) r' []
| run_status_fails owner name request env depl depl' r' client err :
    Updated owner name request env depl depl' r' ->
    getGithubClientFromEnvironment config env = Ok client ->
    Client.Repositories_CreateDeploymentStatus client
      (Environment.GitRepoOwner env) (Environment.GitRepoName env)
      (Deployment.GHDeploymentID depl')
      (DeploymentStatusRequest.mk "success" (Deployment.Subdomain depl')) = Some err ->
    Run (HandleAPIError (NewErrInternal err)) r' [statusCall env depl']
| run_pull_request_fails owner name request env depl depl' r' client err :
    StatusSet owner name request env depl depl' r' client ->
    Client.PullRequests_Get client owner name (int (Deployment.PullRequestID depl'))
      = Fail err ->
    Run (HandleAPIError (prFetchError depl' err)) r'
        [statusCall env depl'; pullRequestCall owner name depl']
| run_pull_request_closed owner name request env depl depl' r' client :
    PullRequestIs true owner name request env depl depl' r' client ->
    Run (HandleAPIError prClosedError) r'
        [statusCall env depl'; pullRequestCall owner name depl']
| run_workflow_fails owner name request env depl depl' r' client err :
    PullRequestIs false owner name request env depl depl' r' client ->
    commonutils_GetLatestWorkflowRun client
      (Deployment.RepoOwner depl') (Deployment.RepoName depl')
      (workflowFilename env) (Deployment.PRBranchFrom depl') = Fail err ->
    Run (HandleAPIError (NewErrInternal err)) r'
        [statusCall env depl'; pullRequestCall owner name depl'; workflowCall env depl']
| run_comment_fails owner name request env depl depl' r' client workflowRun err :
    RunFound owner name request env depl depl' r' client workflowRun ->
    Client.Issues_CreateComment client
      (Environment.GitRepoOwner env) (Environment.GitRepoName env)
      (int (Deployment.PullRequestID (rendered depl')))
      (commentBody config project cluster (rendered depl') workflowRun
         (FinalizeDeploymentRequest.SuccessfulResources request)) = Some err ->
    Run (HandleAPIError (NewErrInternal err)) r'
        [statusCall env depl'; pullRequestCall owner name depl'; workflowCall env depl';
         commentCall request env depl' workflowRun]
| run_success owner name request env depl depl' r' client workflowRun :
    RunFound owner name request env depl depl' r' client workflowRun ->
    Client.Issues_CreateComment client
      (Environment.GitRepoOwner env) (Environment.GitRepoName env)
      (int (Deployment.PullRequestID (rendered depl')))
      (commentBody config project cluster (rendered depl') workflowRun
         (FinalizeDeploymentRequest.SuccessfulResources request)) = None ->
    Run (WriteResult (ToDeploymentType (rendered depl'))) r'
        [statusCall env depl'; pullRequestCall owner name depl'; workflowCall env depl';
         commentCall request env depl' workflowRun].
End Run.

(** ** What a backing store is expected to do *)

(** A store keeps its updates: when the row read under (environment,
    namespace) is written back with the same fields outside [Subdomain]
    and [Status], the store answers the row it was given, and reading
    under the same key afterwards yields that row. *)
Class KeepsUpdates (R : Type) `{EnvironmentRepository R} : Prop := {
  read_after_update :
    forall (r r' : R) (environmentID : N) (namespace : string)
           (read written answered : Deployment.t),
      ReadDeployment r environmentID namespace = Ok read ->
      Deployment.frame written = Deployment.frame read ->
      UpdateDeployment r written = Ok (answered, r') ->
      answered = written /\
      ReadDeployment r' environmentID namespace = Ok written
}.

(** The status and the subdomain stored under (environment, namespace). *)
Definition storedStatus {R : Type} `{EnvironmentRepository R}
    (r : R) (environmentID : N) (namespace : string) : option DeploymentStatus :=
  match ReadDeployment r environmentID namespace with
  | Ok d => Some (Deployment.Status d)
  | Fail _ => None
  end.

Definition storedSubdomain {R : Type} `{EnvironmentRepository R}
    (r : R) (environmentID : N) (namespace : string) : option string :=
  match ReadDeployment r environmentID namespace with
  | Ok d => Some (Deployment.Subdomain d)
  | Fail _ => None
  end.

(** The bodies of the comments among the calls sent. *)
Fixpoint commentsOf (calls : list GithubCall) : list string :=
  match calls with
  | [] => []
  | CreateComment _ _ _ body :: calls' => body :: commentsOf calls'
  | _ :: calls' => commentsOf calls'
  end.

(** ** Observations on the rendered text and on the calls sent *)

(** [needle] occurs in [text]. *)
Definition contains (needle text : string) : Prop :=
  exists before after, text = before ++ needle ++ after.

Fixpoint joinLines (lines : list string) : string :=
  match lines with
  | [] => ""
  | line :: lines' => line ++ joinLines lines'
  end.

(** The two link templates of the resource list. *)
Inductive LinkStyle : Type :=
| JobStyle
| ApplicationStyle.

Definition isStyle (style : LinkStyle) (link : LinkStyle * string) : bool :=
  match style, fst link with
  | JobStyle, JobStyle => true
  | ApplicationStyle, ApplicationStyle => true
  | _, _ => false
  end.

Definition countStyle (style : LinkStyle) (links : list (LinkStyle * string)) : nat :=
  length (filter (isStyle style) links).

Section ResourceLinks.
Variable config : Config.t.
Variable project : Project.t.
Variable cluster : Cluster.t.
Variable depl : Deployment.t.

(** The line the loop appends for one resource, with its template. *)
Definition resourceLink (res : SuccessfulResource.t) : LinkStyle * string :=
  if (SuccessfulResource.ReleaseType res =? "job")%string
  then (JobStyle, jobLink config project cluster depl res)
  else (ApplicationStyle, applicationLink config project cluster depl res).

Definition resourceLinks (resources : list SuccessfulResource.t)
    : list (LinkStyle * string) :=
  map resourceLink resources.
End ResourceLinks.


(** ** Sample inputs *)

Module Sample.
Definition config : Config.t := Config.mk "https://dashboard.example.com".
Definition ga : GithubAppInstallation.t := GithubAppInstallation.mk 42.
Definition project : Project.t := Project.mk 1.
Definition cluster : Cluster.t := Cluster.mk 2 "prod".
Definition env : Environment.t := Environment.mk 3 1 2 42 "preview" "acme" "shop".
Definition depl : Deployment.t :=
  Deployment.mk 5 3 "pr-7" DeploymentStatusCreating "" 7 99
    "acme" "shop" "abc123" "feature".
Definition store : MemRepo.t := MemRepo.mk [env] [depl].
Definition params : option (string * string) := Some ("acme", "shop").
Definition request (subdomain : string) (resources : list SuccessfulResource.t)
    : option FinalizeDeploymentRequest.t :=
  Some (FinalizeDeploymentRequest.mk "pr-7" subdomain resources).
Definition worker : SuccessfulResource.t := SuccessfulResource.mk "worker" "job".
Definition workflowRun : WorkflowRun.t :=
  WorkflowRun.mk (Some "https://github.com/acme/shop/actions/runs/1").
Definition openPR : result PullRequest.t := Ok (PullRequest.mk (Some "open")).
Definition closedPR : result PullRequest.t := Ok (PullRequest.mk (Some "closed")).
(** A pull-request system answering each call with the given outcome. *)
Definition client (status : option error) (pr : result PullRequest.t)
    (comment : option error) : Client.t :=
  Client.mk (fun _ _ _ _ => status) (fun _ _ _ => pr) (fun _ _ _ _ => comment).
Definition getClient (c : Client.t) (_ : Config.t) (_ : Environment.t)
    : result Client.t := Ok c.
Definition getRun (x : result WorkflowRun.t) (_ : Client.t) (_ _ _ _ : string)
    : result WorkflowRun.t := x.
(** A request for the sample Deployment, the row it leaves and the store
    after it. *)
Definition finalizeRequest : FinalizeDeploymentRequest.t :=
  FinalizeDeploymentRequest.mk "pr-7" "foo.example.com" [worker].
Definition finalizedDepl : Deployment.t := finalized finalizeRequest depl.
Definition finalizedStore : MemRepo.t := MemRepo.mk [env] [finalizedDepl].
(** The sample request served with the given pull-request system. *)
Definition serve (c : Client.t) (run : result WorkflowRun.t)
    : Response * State MemRepo.t :=
  finalize (getClient c) (getRun run) config ga project cluster
    params (Some finalizeRequest) store.
End Sample.

(** ** Sample inputs of the provisioning handlers *)

(** Modelled from the spec: the execution substrate is outside these
    sources.  Section 4.4 allows at most one provisioning run in flight
    per resource instance; this substrate holds the registry jobs in
    flight, as (project, registry name), rejects a job identical to one
    of them and accepts any other. *)
Module Substrate.
Definition t : Type := list (N * string).

Definition isJob (projectID : N) (ecrName : string) (job : N * string) : bool :=
  (fst job =? projectID)%N && (snd job =? ecrName)%string.

Definition inFlight (k : t) (projectID : N) (ecrName : string) : bool :=
  existsb (isJob projectID ecrName) k.

Definition alreadyExists : error := "job already exists".

Definition ProvisionECR (agent : unit) (k : t) (projectID : N) (awsInt : unit)
    (ecrName : string) : result ((N * string) * t) :=
  if inFlight k projectID ecrName
  then Fail alreadyExists
  else Ok ((projectID, ecrName), (projectID, ecrName) :: k).
End Substrate.

Module ProvisionSample.
Definition ParseUint (s : string) : result N :=
  if (s =? "1")%string then Ok 1%N else Fail "invalid syntax".
(** The body of the request names the registry [registry]. *)
Definition Decode (form : Provision.CreateECRInfra.t)
    : result Provision.CreateECRInfra.t :=
  Ok (Provision.CreateECRInfra.mk (Provision.CreateECRInfra.ProjectID form) "registry" 4).
Definition ToAWSInfra (form : Provision.CreateECRInfra.t) : result Provision.AWSInfra.t :=
  Ok (Provision.AWSInfra.mk 0 (Provision.CreateECRInfra.ProjectID form)
        (Provision.CreateECRInfra.AWSIntegrationID form)).
Definition CreateAWSInfra (infra : Provision.AWSInfra.t) : result Provision.AWSInfra.t :=
  Ok (Provision.AWSInfra.mk 9 (Provision.AWSInfra.ProjectID infra)
        (Provision.AWSInfra.AWSIntegrationID infra)).
(** A launch for project [1] on the substrate [k]. *)
Definition launch (k : Substrate.t)
    : list (Provision.Effect Provision.AWSInfra.t) * Substrate.t :=
  Provision.HandleProvisionAWSECRInfra unit unit (N * string) Provision.AWSInfra.t
    Substrate.t ParseUint Decode (fun _ => None) ToAWSInfra CreateAWSInfra
    (fun _ => Ok tt) (Ok tt) Substrate.ProvisionECR (fun infra => infra) (fun _ => None)
    "1" k.
(** The path parameters of two requests for the logs of one run. *)
Definition URLParam (key : string) : string :=
  if (key =? "kind")%string then "ecr"
  else if (key =? "project_id")%string then "1"
  else if (key =? "infra_id")%string then "9"
  else "".
Definition URLParam' (key : string) : string :=
  if (key =? "infra_id")%string then "9"
  else if (key =? "project_id")%string then "1"
  else if (key =? "kind")%string then "ecr"
  else "unused".
End ProvisionSample.

(** ** Further observations on the finalize handler *)

(** The four notification steps, in the order of the source. *)
Inductive Step : Type :=
| StatusStep
| PullRequestStep
| WorkflowStep
| CommentStep.

Definition stepOf (c : GithubCall) : Step :=
  match c with
  | CreateDeploymentStatus _ _ _ _ => StatusStep
  | GetPullRequest _ _ _ => PullRequestStep
  | GetLatestWorkflowRun _ _ _ _ => WorkflowStep
  | CreateComment _ _ _ _ => CommentStep
  end.

Definition notificationSteps : list Step :=
  [StatusStep; PullRequestStep; WorkflowStep; CommentStep].

(** The deployment statuses among the calls sent:
    (owner, repository, deployment, state, environment URL). *)
Fixpoint deploymentStatuses (calls : list GithubCall)
    : list (string * string * Z * string * string) :=
  match calls with
  | [] => []
  | CreateDeploymentStatus owner repo deployment request :: calls' =>
      (owner, repo, deployment, DeploymentStatusRequest.State request,
       DeploymentStatusRequest.EnvironmentURL request) :: deploymentStatuses calls'
  | _ :: calls' => deploymentStatuses calls'
  end.


(** ** Package [api]: the test provisioning handler *)

Definition StatusOK : Z := 200.

Section ProvisionTest.
Variables Agent Job Substrate : Type.
Variable strconv_ParseUint : string -> result N.
Variable GetAgentInClusterConfig : result Agent.
Variable ProvisionTest : Agent -> Substrate -> N -> result (Job * Substrate).

(** [App.HandleProvisionTest]: [project_id] is the URL parameter; the
    result is what was written, and the substrate after the call. *)
Definition HandleProvisionTest (project_id : string) (k : Substrate)
    : list (Provision.Effect Empty_set) * Substrate :=
  let '(projID, err) :=
    match strconv_ParseUint project_id with
    | Ok n => (n, None)
    | Fail e => (0%N, Some e)
    end in
  match err with
  | Some _ => ([Provision.handleErrorFormDecoding err Provision.ErrProjectDecode], k)
  | None =>
  if (projID =? 0)%N
  then ([Provision.handleErrorFormDecoding err Provision.ErrProjectDecode], k) else
  (* create a new agent *)
  match GetAgentInClusterConfig with
  | Fail e => ([Provision.handleErrorDataRead e], k)
  | Ok agent =>
  match ProvisionTest agent k projID with
  | Fail e => ([Provision.handleErrorInternal e], k)
  | Ok (_, k') => ([Provision.WriteHeader StatusOK], k')
  end end end.
End ProvisionTest.

(** Whether a string has no hyphen. *)
Fixpoint hyphenFree (s : string) : bool :=
  match s with
  | EmptyString => true
  | String c s' => negb (c =? "-")%char && hyphenFree s'
  end.

(** A store in which every write fails; reads are those of the in-memory
    store it wraps. *)
Module ReadOnlyRepo.
Record t : Type := mk { rows : MemRepo.t }.
Definition readOnly : error := "database is read-only".
End ReadOnlyRepo.

#[export] Instance ReadOnlyRepo_EnvironmentRepository
  : EnvironmentRepository ReadOnlyRepo.t := {
  ReadEnvironment s := MemRepo.readEnvironment (ReadOnlyRepo.rows s);
  ReadDeployment s := MemRepo.readDeployment (ReadOnlyRepo.rows s);
  UpdateDeployment _ _ := Fail ReadOnlyRepo.readOnly
}.

(** Path parameters of two different runs whose stream names coincide. *)
Module CollidingParams.
Definition first (key : string) : string :=
  if (key =? "kind")%string then "test-1"
  else if (key =? "project_id")%string then "2"
  else if (key =? "infra_id")%string then "3"
  else "".
Definition second (key : string) : string :=
  if (key =? "kind")%string then "test"
  else if (key =? "project_id")%string then "1-2"
  else if (key =? "infra_id")%string then "3"
  else "".
End CollidingParams.

(** ** Package [router]: the routes of the API *)

Module Router.

(** The handlers of [api.App] that the router mounts. *)
Inductive AppHandler : Type :=
| HandleReadUser | HandleCreateUser | HandleDeleteUser | HandleLoginUser
| HandleAuthCheck | HandleLogoutUser
| HandleReadProject | HandleCreateProject
| HandleCreateProjectSACandidates | HandleListProjectSACandidates
| HandleResolveSACandidateActions
| HandleListReleases | HandleGetReleaseComponents | HandleListReleaseHistory
| HandleUpgradeRelease | HandleGetRelease | HandleRollbackRelease
| HandleListNamespaces.

(** [mw.URLParam], [mw.QueryParam]: where a middleware reads an id. *)
Inductive IDLocation : Type :=
| URLParam
| QueryParam.

(** [mw.ReadAccess], [mw.WriteAccess]. *)
Inductive AccessType : Type :=
| ReadAccess
| WriteAccess.

(** A mounted handler: [requestlog.NewHandler(a.Handle..., l)] under the
    middlewares of [mw.Auth] wrapped around it. *)
Inductive Handler : Type :=
| NewHandler (h : AppHandler)
| DoesUserIDMatch (next : Handler) (loc : IDLocation)
| BasicAuthenticate (next : Handler)
| DoesUserHaveProjectAccess (next : Handler) (loc : IDLocation) (access : AccessType)
| DoesUserHaveServiceAccountAccess (next : Handler) (projLoc saLoc : IDLocation).

Record Route : Type := mkRoute {
  method : string;
  pattern : string;
  handler : Handler
}.

(** The calls of [r.Method] inside [r.Route("/api", ...)], in order;
    patterns are relative to [/api]. *)
Definition apiRoutes : list Route := [
  (* /api/users routes *)
  mkRoute "GET" "/users/{user_id}" (DoesUserIDMatch (NewHandler HandleReadUser) URLParam);
  mkRoute "POST" "/users" (NewHandler HandleCreateUser);
  mkRoute "DELETE" "/users/{user_id}" (DoesUserIDMatch (NewHandler HandleDeleteUser) URLParam);
  mkRoute "POST" "/login" (NewHandler HandleLoginUser);
  mkRoute "GET" "/auth/check" (BasicAuthenticate (NewHandler HandleAuthCheck));
  mkRoute "POST" "/logout" (BasicAuthenticate (NewHandler HandleLogoutUser));
  (* /api/projects routes *)
  mkRoute "GET" "/projects/{project_id}"
    (DoesUserHaveProjectAccess (NewHandler HandleReadProject) URLParam ReadAccess);
  mkRoute "POST" "/projects" (BasicAuthenticate (NewHandler HandleCreateProject));
  mkRoute "POST" "/projects/{project_id}/candidates"
    (DoesUserHaveProjectAccess (NewHandler HandleCreateProjectSACandidates)
       URLParam WriteAccess);
  mkRoute "GET" "/projects/{project_id}/candidates"
    (DoesUserHaveProjectAccess (NewHandler HandleListProjectSACandidates)
       URLParam WriteAccess);
  mkRoute "POST" "/projects/{project_id}/candidates/{candidate_id}/resolve"
    (DoesUserHaveProjectAccess (NewHandler HandleResolveSACandidateActions)
       URLParam WriteAccess);
  (* /api/projects/{project_id}/releases routes *)
  mkRoute "GET" "/projects/{project_id}/releases"
    (DoesUserHaveProjectAccess
       (DoesUserHaveServiceAccountAccess (NewHandler HandleListReleases)
          URLParam QueryParam)
       URLParam ReadAccess);
  mkRoute "GET" "/projects/{project_id}/releases/{name}/{revision}/components"
    (DoesUserHaveProjectAccess
       (DoesUserHaveServiceAccountAccess (NewHandler HandleGetReleaseComponents)
          URLParam QueryParam)
       URLParam ReadAccess);
  mkRoute "GET" "/projects/{project_id}/releases/{name}/history"
    (DoesUserHaveProjectAccess
       (DoesUserHaveServiceAccountAccess (NewHandler HandleListReleaseHistory)
          URLParam QueryParam)
       URLParam ReadAccess);
  mkRoute "POST" "/projects/{project_id}/releases/{name}/upgrade"
    (DoesUserHaveProjectAccess
       (DoesUserHaveServiceAccountAccess (NewHandler HandleUpgradeRelease)
          URLParam QueryParam)
       URLParam ReadAccess);
  mkRoute "GET" "/projects/{project_id}/releases/{name}/{revision}"
    (DoesUserHaveProjectAccess
       (DoesUserHaveServiceAccountAccess (NewHandler HandleGetRelease)
          URLParam QueryParam)
       URLParam ReadAccess);
  mkRoute "POST" "/projects/{project_id}/releases/{name}/rollback"
    (DoesUserHaveProjectAccess
       (DoesUserHaveServiceAccountAccess (NewHandler HandleRollbackRelease)
          URLParam QueryParam)
       URLParam ReadAccess);
  (* /api/projects/{project_id}/k8s routes *)
  mkRoute "GET" "/projects/{project_id}/k8s/namespaces"
    (DoesUserHaveProjectAccess
       (DoesUserHaveServiceAccountAccess (NewHandler HandleListNamespaces)
          URLParam QueryParam)
       URLParam ReadAccess)
].

(** The handler of [api.App] at the core of a mounted handler. *)
Fixpoint appHandler (h : Handler) : AppHandler :=
  match h with
  | NewHandler a => a
  | DoesUserIDMatch next _ => appHandler next
  | BasicAuthenticate next => appHandler next
  | DoesUserHaveProjectAccess next _ _ => appHandler next
  | DoesUserHaveServiceAccountAccess next _ _ => appHandler next
  end.

(** Whether a mounted handler passes through a middleware of [mw.Auth]. *)
Definition authenticated (h : Handler) : bool :=
  match h with
  | NewHandler _ => false
  | _ => true
  end.

(** The access a mounted handler asks of the user on the project, when
    it checks project access at all. *)
Fixpoint projectAccess (h : Handler) : option AccessType :=
  match h with
  | NewHandler _ => None
  | DoesUserIDMatch next _ => projectAccess next
  | BasicAuthenticate next => projectAccess next
  | DoesUserHaveProjectAccess _ _ access => Some access
  | DoesUserHaveServiceAccountAccess next _ _ => projectAccess next
  end.

(** Whether a mounted handler checks access to the service account. *)
Fixpoint checksServiceAccount (h : Handler) : bool :=
  match h with
  | NewHandler _ => false
  | DoesUserIDMatch next _ => checksServiceAccount next
  | BasicAuthenticate next => checksServiceAccount next
  | DoesUserHaveProjectAccess next _ _ => checksServiceAccount next
  | DoesUserHaveServiceAccountAccess _ _ _ => true
  end.

End Router.

(** ** JavaScript strings *)

Module JS.

(** [s.includes(needle)] *)
Fixpoint includes (needle s : string) : bool :=
  String.prefix needle s ||
  match s with
  | EmptyString => false
  | String _ s' => includes needle s'
  end.

(** [s.split(sep)] for a separator of one character. *)
Fixpoint split (sep : ascii) (s : string) : list string :=
  match s with
  | EmptyString => [EmptyString]
  | String c s' =>
      if (c =? sep)%char then EmptyString :: split sep s'
      else match split sep s' with
           | part :: parts => String c part :: parts
           | [] => [String c EmptyString]
           end
  end.

(** [parts.join(sep)] *)
Fixpoint join (sep : ascii) (parts : list string) : string :=
  match parts with
  | [] => EmptyString
  | [part] => part
  | part :: parts' => part ++ String sep (join sep parts')
  end.

(** A string that may be [undefined], used as a condition. *)
Definition truthy (o : option string) : bool :=
  match o with
  | Some s => negb (s =? "")%string
  | None => false
  end.

Fixpoint hasChar (c : ascii) (s : string) : bool :=
  match s with
  | EmptyString => false
  | String c' s' => (c' =? c)%char || hasChar c s'
  end.

End JS.

(** ** The dashboard: adding an application to a stack ([NewApp]) *)

Module NewApp.

Definition DEFAULT_STACK_SOURCE_CONFIG_INDEX : nat := 0.

Record StackSourceConfig : Type := mkSource {
  name : option string;
  image_repo_uri : option string;
  image_tag : option string;
  build_isEmpty : bool          (* [_.isEmpty(stackSourceConfig.build)] *)
}.

Record Cluster : Type := mkCluster {
  service : string;
  server : string
}.

(** [template?.metadata?.name === "job"] *)
Definition isJob (templateName : option string) : bool :=
  match templateName with
  | Some n => (n =? "job")%string
  | None => false
  end.

(** The image repository and tag [handleSubmit] settles on (source
    lines 97-116 of the component). *)
Definition imageSource (stackSourceConfig : StackSourceConfig)
    (templateName : option string) : option string * option string :=
  let url := image_repo_uri stackSourceConfig in
  let tag := image_tag stackSourceConfig in
  let '(url, tag) :=
    match url with
    | Some u =>
        if JS.includes ":" u
        then let splits := JS.split ":" u in (nth_error splits 0, nth_error splits 1)
        else if negb (JS.truthy tag) then (url, Some "latest") else (url, tag)
    | None => if negb (JS.truthy tag) then (url, Some "latest") else (url, tag)
    end in
  if negb (build_isEmpty stackSourceConfig)
  then if isJob templateName
       then (Some "public.ecr.aws/o1j4x7p4/hello-porter-job", Some "latest")
       else (Some "public.ecr.aws/o1j4x7p4/hello-porter", Some "latest")
  else (url, tag).

(** The ingress provider [handleSubmit] settles on (source lines
    118-148): by the service of the cluster, else by what its server URL
    contains. *)
Definition ingressProvider (currentCluster : Cluster) : string :=
  let provider :=
    if (service currentCluster =? "eks")%string then "aws"
    else if (service currentCluster =? "gke")%string then "gcp"
    else if (service currentCluster =? "doks")%string then "digitalocean"
    else if (service currentCluster =? "aks")%string then "azure"
    else if (service currentCluster =? "vke")%string then "vultr"
    else "" in
  if (provider =? "")%string
  then let server := server currentCluster in
       if JS.includes "eks" server then "eks"
       else if JS.includes "ondigitalocean" server then "digitalocean"
       else if JS.includes "azmk8s" server then "azure"
       else if JS.includes "vultr" server then "vultr"
       else provider
  else provider.

(** A value assigned with [_.set]. *)
Inductive JsValue (V : Type) : Type :=
| Raw (v : V)
| Str (s : string)
| Bool (b : bool).
Arguments Raw {V} v.
Arguments Str {V} s.
Arguments Bool {V} b.

(** The argument of [addAppResource]; [values] is the object built by
    the calls of [_.set], given as these calls in order. *)
Record AppResource (V : Type) : Type := mkResource {
  app_name : string;
  source_config_name : string;
  template_name : string;
  template_version : string;
  values : list (string * JsValue V)
}.
Arguments mkResource {V}.
Arguments app_name {V}.
Arguments source_config_name {V}.
Arguments template_name {V}.
Arguments template_version {V}.
Arguments values {V}.

(** What the callback of [setTimeout] does. *)
Inductive Later : Type :=
| resetSaveButtonStatus (status : string)
| pushFiltered (path : string).

Inductive Effect (V : Type) : Type :=
| setSaveButtonStatus (status : string)
| addAppResource (r : AppResource V)
| setTimeout (callback : list Later) (ms : N).
Arguments setSaveButtonStatus {V}.
Arguments addAppResource {V}.
Arguments setTimeout {V}.

(** [handleSubmit(rawValues)]: [source_configs] is
    [newStack.source_configs], [templateName] is
    [template?.metadata?.name], [params_template_name] and
    [params_version] are the route parameters. *)
Definition handleSubmit {V : Type} (source_configs : list StackSourceConfig)
    (templateName : option string) (currentCluster : Cluster) (appName : string)
    (params_template_name params_version : string)
    (rawValues : list (string * V)) : list (Effect V) :=
  setSaveButtonStatus "loading" ::
  (* Convert dotted keys to nested objects *)
  let values := map (fun kv => (fst kv, Raw (snd kv))) rawValues in
  match nth_error source_configs DEFAULT_STACK_SOURCE_CONFIG_INDEX with
  | None => []
  | Some stackSourceConfig =>
      let '(url, tag) := imageSource stackSourceConfig templateName in
      let provider := ingressProvider currentCluster in
      (* don't overwrite for templates that already have a source *)
      let values :=
        match url, tag with
        | Some u, Some t =>
            if JS.truthy url && JS.truthy tag
            then (values ++ [("image.repository", Str u); ("image.tag", Str t)])%list
            else values
        | _, _ => values
        end in
      let values := (values ++ [("ingress.provider", Str provider)])%list in
      (* pause jobs automatically *)
      let values :=
        if isJob templateName then (values ++ [("paused", Bool true)])%list else values in
      if (appName =? "")%string
      then [setSaveButtonStatus "App name cannot be empty"]
      else [addAppResource
              (mkResource appName
                 (match nth_error source_configs 0 with
                  | Some first =>
                      if JS.truthy (name first)
                      then match name first with Some n => n | None => "" end
                      else ""
                  | None => ""
                  end)
                 params_template_name params_version values);
            setSaveButtonStatus "successful";
            setTimeout [resetSaveButtonStatus ""; pushFiltered "/stacks/launch/overview"]
                       1000]
  end.

(** The resources added by a run of [handleSubmit]. *)
Fixpoint added {V : Type} (effects : list (Effect V)) : list (AppResource V) :=
  match effects with
  | [] => []
  | addAppResource r :: effects' => r :: added effects'
  | _ :: effects' => added effects'
  end.

(** The last value [_.set] gave to a key. *)
Fixpoint lastSet {V : Type} (key : string) (values : list (string * JsValue V))
    : option (JsValue V) :=
  match values with
  | [] => None
  | (k, v) :: values' =>
      match lastSet key values' with
      | Some later => Some later
      | None => if (k =? key)%string then Some v else None
      end
  end.

End NewApp.

(** ** The dashboard: the [Selector] component *)

Module Selector.

Record Option : Type := mkOption { value : string; label : string }.

(** [getLabel(value)]: the label of the option found, or [undefined]. *)
Definition getLabel (options : list Option) (v : string) : option string :=
  match find (fun element => (value element =? v)%string) options with
  | Some tgt => Some (label tgt)
  | None => None
  end.

(** The text shown in the main selector. *)
Definition shown (options : list Option) (activeValue : string) : option string :=
  if (activeValue =? "")%string then Some "All" else getLabel options activeValue.

(** The props [renderOptionList] gives to one rendered option. *)
Record Rendered : Type := mkRendered {
  key : nat;
  selected : bool;
  lastItem : bool;
  text : string
}.

Fixpoint renderFrom (i : nat) (len : nat) (activeValue : string) (options : list Option)
    : list Rendered :=
  match options with
  | [] => []
  | option :: options' =>
      mkRendered i (value option =? activeValue)%string (i =? len - 1)%nat (label option)
      :: renderFrom (S i) len activeValue options'
  end.

(** [renderOptionList()]: [options.map((option, i) => ...)]. *)
Definition renderOptionList (options : list Option) (activeValue : string)
    : list Rendered :=
  renderFrom 0 (length options) activeValue options.

End Selector.

(** ** The workflow runs of a repository *)

(** Modelled from the spec: [commonutils.GetLatestWorkflowRun] is outside
    these sources.  Section 4.3 (c) says what it does: it locates the most
    recent run of the workflow of the given name, among the runs of the
    given branch.  The runs of a repository are listed most recent first;
    the helper answers the first run of the workflow file on the branch
    and fails when there is none. *)
Module Actions.
Record Run : Type := mkRun {
  workflow_file : string;
  head_branch : string;
  html_url : option string
}.

Definition isRun (filename branch : string) (r : Run) : bool :=
  (workflow_file r =? filename)%string && (head_branch r =? branch)%string.

Definition noRuns : error := "no workflow runs found".

Definition GetLatestWorkflowRun (runs : string -> string -> list Run)
    (client : Client.t) (owner repo filename branch : string)
    : result WorkflowRun.t :=
  match find (isRun filename branch) (runs owner repo) with
  | Some r => Ok (WorkflowRun.mk (html_url r))
  | None => Fail noRuns
  end.
End Actions.

(** The runs of the sample repository, most recent first. *)
Module SampleRuns.
Definition runs (owner repo : string) : list Actions.Run :=
  [Actions.mkRun "porter_preview_env.yml" "main"
     (Some "https://github.com/acme/shop/actions/runs/4");
   Actions.mkRun "ci.yml" "feature"
     (Some "https://github.com/acme/shop/actions/runs/3");
   Actions.mkRun "porter_preview_env.yml" "feature"
     (Some "https://github.com/acme/shop/actions/runs/2");
   Actions.mkRun "porter_preview_env.yml" "feature"
     (Some "https://github.com/acme/shop/actions/runs/1")].
End SampleRuns.

(** ** Error reports of the provisioning handlers *)

(** Whether an effect is a call of one of the helpers [app.handleError...]. *)
Definition isErrorReport {X : Type} (e : Provision.Effect X) : bool :=
  match e with
  | Provision.handleErrorFormDecoding _ _ => true
  | Provision.handleErrorFormValidation _ _ => true
  | Provision.handleErrorDataWrite _ => true
  | Provision.handleErrorDataRead _ => true
  | Provision.handleErrorInternal _ => true
  | Provision.LoggerInfo _ => false
  | Provision.WriteHeader _ => false
  | Provision.Encode _ => false
  end.

(** ** Two launches of the same registry *)

Module LaunchSample.
(** The store assigns the given ID to the infra it creates. *)
Definition CreateAWSInfra (id : N) (infra : Provision.AWSInfra.t)
    : result Provision.AWSInfra.t :=
  Ok (Provision.AWSInfra.mk id (Provision.AWSInfra.ProjectID infra)
        (Provision.AWSInfra.AWSIntegrationID infra)).
(** A launch for project [1] whose infra gets the ID [id]. *)
Definition launch (id : N) (k : Substrate.t)
    : list (Provision.Effect Provision.AWSInfra.t) * Substrate.t :=
  Provision.HandleProvisionAWSECRInfra unit unit (N * string) Provision.AWSInfra.t
    Substrate.t ProvisionSample.ParseUint ProvisionSample.Decode (fun _ => None)
    ProvisionSample.ToAWSInfra (CreateAWSInfra id)
    (fun _ => Ok tt) (Ok tt) Substrate.ProvisionECR (fun infra => infra) (fun _ => None)
    "1" k.
(** The path parameters of the log request for the infra [infra_id]. *)
Definition URLParam (infra_id : string) (key : string) : string :=
  if (key =? "kind")%string then "ecr"
  else if (key =? "project_id")%string then "1"
  else if (key =? "infra_id")%string then infra_id
  else "".
End LaunchSample.


(** * Properties *)

(** ** The handler takes exactly one of its exits *)

Section RunLemmas.
Context {R : Type} `{EnvironmentRepository R}.
Variable getClient : Config.t -> Environment.t -> result Client.t.
Variable getRun : Client.t -> string -> string -> string -> string -> result WorkflowRun.t.
#[local] Arguments fmt.Sprintf : simpl never.
#[local] Arguments fmt.Errorf : simpl never.
#[local] Arguments workflowFilename : simpl never.
#[local] Arguments commentBody : simpl never.

Lemma finalize_Run config ga project cluster params decoded (r : R) :
  let out := finalize getClient getRun config ga project cluster params decoded r in
  Run getClient getRun config ga project cluster params decoded r
      (fst out) (repo (snd out)) (sent (snd out)).
Proof.
  unfold finalize, ServeHTTP, bind, orReturn, getRepo, putRepo, send, isGithubPRClosed.
  cbn.
  destruct params as [[owner name]|]; cbn; [|now constructor].
  destruct decoded as [request|]; cbn; [|now econstructor].
  destruct (ReadEnvironment r _ _ _ owner name) as [env|err] eqn:Eenv; cbn;
    [|solve [econstructor; eauto]].
  destruct (ReadDeployment r _ _) as [depl|err] eqn:Edepl; cbn;
    [|solve [econstructor; eauto]].
  assert (Hres : Resolved ga project cluster (Some (owner, name)) (Some request) r
                   owner name request env depl) by (repeat split; assumption).
  destruct (UpdateDeployment r _) as [[depl' r']|err] eqn:Eupd; cbn;
    [|solve [eapply run_update_fails; eauto]].
  assert (Hupd : Updated ga project cluster (Some (owner, name)) (Some request) r
                   owner name request env depl depl' r') by (split; assumption).
  destruct (getClient config env) as [client|err] eqn:Ecl; cbn;
    [|solve [eapply run_client_fails; eauto]].
  destruct (Client.Repositories_CreateDeploymentStatus client _ _ _ _) as [err|] eqn:Est; cbn;
    [solve [eapply run_status_fails; eauto]|].
  assert (Hst : StatusSet getClient config ga project cluster (Some (owner, name))
                  (Some request) r owner name request env depl depl' r' client)
    by (repeat split; assumption).
  destruct (Client.PullRequests_Get client owner name _) as [ghPR|err] eqn:Epr; cbn;
    [|solve [eapply run_pull_request_fails; eauto]].
  destruct (PullRequest.GetState ghPR =? "closed")%string eqn:Eclosed; cbn.
  { eapply run_pull_request_closed. split; eauto. }
  assert (Hopen : PullRequestIs getClient config ga project cluster (Some (owner, name))
                    (Some request) r false owner name request env depl depl' r' client)
    by (split; eauto).
  destruct (getRun client _ _ _ _) as [workflowRun|err] eqn:Erun; cbn;
    [|solve [eapply run_workflow_fails; eauto]].
  assert (Hrun : RunFound getClient getRun config ga project cluster (Some (owner, name))
                   (Some request) r owner name request env depl depl' r' client workflowRun)
    by (split; assumption).
  destruct (Client.Issues_CreateComment client _ _ _ _) as [err|] eqn:Ecom; cbn.
  - eapply run_comment_fails; eauto.
  - eapply run_success; eauto.
Qed.
End RunLemmas.

(** Unfold the stages of a run down to the equations on the calls. *)
Ltac stages :=
  unfold RunFound, PullRequestIs, StatusSet, Updated, Resolved in *;
  repeat match goal with
         | H : _ /\ _ |- _ => destruct H
         | H : exists _, _ |- _ => destruct H
         end.

(** Two equations on the same call name the same answer. *)
Ltac same_answers :=
  repeat match goal with
         | H : Some ?a = Some ?b |- _ =>
             tryif constr_eq a b then clear H else (inversion H; subst; clear H)
         | H1 : ?t = ?c ?a, H2 : ?t = ?c ?b |- _ =>
             tryif constr_eq a b then fail
             else (let E := fresh "E" in
                   assert (E : b = a) by congruence;
                   inversion E; subst; clear H2)
         end.

(** Case analysis on the exit taken by a call of [finalize]. *)
Ltac exits getClient getRun config ga project cluster params decoded r :=
  let HR := fresh "HR" in
  let resp := fresh "resp" in
  let store := fresh "store" in
  let calls := fresh "calls" in
  pose proof (finalize_Run getClient getRun config ga project cluster params decoded r) as HR;
  cbv zeta in HR;
  destruct (finalize getClient getRun config ga project cluster params decoded r)
    as [resp [store calls]];
  cbn [fst snd repo sent] in *;
  inversion HR; subst; clear HR; stages; try congruence; same_answers.

Lemma classOf_internal err : classOf (NewErrInternal err) = Internal.
Proof. reflexivity. Qed.

Lemma classOf_conflict err : classOf (NewErrPassThroughToClient err StatusConflict) = Conflict.
Proof. reflexivity. Qed.

(** ** Unresolved references (C4) *)

(** C4, as stated, fails: with no Environment enrolled the store answers
    that the record is not found, and finalize replies with an internal
    error, which is not of class NotFound. *)
Lemma C4_unresolved_environment_is_not_NotFound :
  let s := MemRepo.mk [] [] in
  let out := finalize (Sample.getClient (Sample.client None Sample.openPR None))
               (Sample.getRun (Ok Sample.workflowRun))
               Sample.config Sample.ga Sample.project Sample.cluster
               Sample.params (Sample.request "" []) s in
  ReadEnvironment s 1 2 42 "acme" "shop" = Fail MemRepo.recordNotFound /\
  fst out = HandleAPIError (NewErrInternal MemRepo.recordNotFound) /\
  ~ failsWith NotFound (fst out).
Proof.
  cbn. repeat split.
  intros [e [He Hc]]. inversion He; subst. discriminate Hc.
Qed.

(** C4, amended: when the Environment, or the Deployment of a resolved
    Environment, cannot be read, finalize replies with the internal error
    wrapping the store's error; the store is untouched and nothing is sent
    to the pull-request system. *)
Theorem C4_unresolved_is_internal
    {R : Type} `{EnvironmentRepository R}
    (getClient : Config.t -> Environment.t -> result Client.t)
    (getRun : Client.t -> string -> string -> string -> string -> result WorkflowRun.t)
    config ga project cluster owner name request (r : R) err :
  ReadEnvironment r (Project.ID project) (Cluster.ID cluster)
    (uint (GithubAppInstallation.InstallationID ga)) owner name = Fail err \/
  (exists env,
      ReadEnvironment r (Project.ID project) (Cluster.ID cluster)
        (uint (GithubAppInstallation.InstallationID ga)) owner name = Ok env /\
      ReadDeployment r (Environment.ID env)
        (FinalizeDeploymentRequest.Namespace request) = Fail err) ->
  let out := finalize getClient getRun config ga project cluster
               (Some (owner, name)) (Some request) r in
  fst out = HandleAPIError (NewErrInternal err) /\
  failsWith Internal (fst out) /\
  ~ failsWith NotFound (fst out) /\
  repo (snd out) = r /\
  sent (snd out) = [].
Proof.
  intros Hfail out. subst out.
  assert (Hgoal : forall resp, resp = HandleAPIError (NewErrInternal err) ->
            resp = HandleAPIError (NewErrInternal err) /\
            failsWith Internal resp /\ ~ failsWith NotFound resp).
  { intros resp ->. split; [reflexivity|]. split.
    - eexists; split; [reflexivity|apply classOf_internal].
    - intros [e [He Hc]]. inversion He; subst. discriminate Hc. }
  exits getClient getRun config ga project cluster (Some (owner, name)) (Some request) r;
    destruct Hfail as [Hf | [env' [He Hf]]];
    try congruence;
    try (assert (err0 = err) by congruence; subst err0;
         destruct (Hgoal _ eq_refl) as (? & ? & ?); repeat split; assumption).
Qed.

Lemma C4_unresolved_is_internal_witness :
  let s := MemRepo.mk [Sample.env] [] in
  let out := finalize (Sample.getClient (Sample.client None Sample.openPR None))
               (Sample.getRun (Ok Sample.workflowRun))
               Sample.config Sample.ga Sample.project Sample.cluster
               (Some ("acme", "shop"))
               (Some (FinalizeDeploymentRequest.mk "pr-7" "" [])) s in
  fst out = HandleAPIError (NewErrInternal MemRepo.recordNotFound) /\
  failsWith Internal (fst out) /\
  ~ failsWith NotFound (fst out) /\
  repo (snd out) = s /\
  sent (snd out) = [].
Proof.
  apply (C4_unresolved_is_internal
           (Sample.getClient (Sample.client None Sample.openPR None))
           (Sample.getRun (Ok Sample.workflowRun))
           Sample.config Sample.ga Sample.project Sample.cluster
           "acme" "shop" (FinalizeDeploymentRequest.mk "pr-7" "" [])
           (MemRepo.mk [Sample.env] []) MemRepo.recordNotFound).
  right. exists Sample.env. split; reflexivity.
Defined.

(** ** The in-memory store keeps its updates *)

Lemma frame_isDeployment environmentID namespace (d d' : Deployment.t) :
  Deployment.frame d' = Deployment.frame d ->
  MemRepo.isDeployment environmentID namespace d' =
  MemRepo.isDeployment environmentID namespace d.
Proof.
  unfold Deployment.frame, MemRepo.isDeployment. intros Hf.
  inversion Hf as [[Hid Henv Hns Hpr Hgh Hro Hrn Hsha Hbr]].
  now rewrite Henv, Hns.
Qed.

Lemma find_replaceRow environmentID namespace (d d' : Deployment.t) rows :
  find (MemRepo.isDeployment environmentID namespace) rows = Some d ->
  Deployment.frame d' = Deployment.frame d ->
  find (MemRepo.isDeployment environmentID namespace)
       (map (MemRepo.replaceRow d') rows) = Some d'.
Proof.
  intros Hfind Hframe.
  assert (Hmatch : MemRepo.isDeployment environmentID namespace d' = true).
  { rewrite (frame_isDeployment _ _ d d' Hframe). now apply find_some in Hfind. }
  assert (Hid : Deployment.ID d' = Deployment.ID d).
  { unfold Deployment.frame in Hframe. now inversion Hframe. }
  induction rows as [|x rows IH]; cbn [find map] in *; [discriminate|].
  assert (Hrow : MemRepo.replaceRow d' x
                 = if (Deployment.ID x =? Deployment.ID d')%N then d' else x)
    by reflexivity.
  rewrite Hrow.
  destruct (MemRepo.isDeployment environmentID namespace x) eqn:Hx.
  - inversion Hfind; subst x. rewrite Hid, N.eqb_refl. now rewrite Hmatch.
  - destruct (Deployment.ID x =? Deployment.ID d')%N.
    + now rewrite Hmatch.
    + rewrite Hx. now apply IH.
Qed.

#[export] Instance MemRepo_KeepsUpdates : KeepsUpdates MemRepo.t.
Proof.
  constructor. cbn. unfold MemRepo.readDeployment, MemRepo.updateDeployment.
  intros r r' environmentID namespace read written answered Hread Hframe Hupd.
  destruct (find _ (MemRepo.deployments r)) as [d|] eqn:Hfind; [|discriminate].
  inversion Hread; subst d.
  destruct (existsb _ _); [|discriminate].
  injection Hupd as Hanswered Hstore. subst answered r'.
  split; [reflexivity|]. cbn [MemRepo.deployments].
  now rewrite (find_replaceRow _ _ read written _ Hfind Hframe).
Qed.

Lemma finalized_frame request depl :
  Deployment.frame (finalized request depl) = Deployment.frame depl.
Proof. reflexivity. Qed.

(** ** Finalize on a closed pull request (C1) *)

(** C1, as stated, fails: the Deployment is stored as Creating, the pull
    request is found closed, the reply is the conflict, and the stored
    status has become Created. *)
Lemma C1_closed_pull_request_status_is_changed :
  let out := finalize (Sample.getClient (Sample.client None Sample.closedPR None))
               (Sample.getRun (Ok Sample.workflowRun))
               Sample.config Sample.ga Sample.project Sample.cluster
               Sample.params (Sample.request "foo.example.com" []) Sample.store in
  isGithubPRClosed (Sample.client None Sample.closedPR None) "acme" "shop" 7
                   (mkState Sample.store [])
    = (inr (Ok true), mkState Sample.store [GetPullRequest "acme" "shop" 7]) /\
  fst out = HandleAPIError prClosedError /\
  storedStatus Sample.store 3 "pr-7" = Some DeploymentStatusCreating /\
  storedStatus (repo (snd out)) 3 "pr-7" = Some DeploymentStatusCreated /\
  storedStatus (repo (snd out)) 3 "pr-7" <> storedStatus Sample.store 3 "pr-7".
Proof.
  cbn. repeat split. discriminate.
Qed.

(** C1, amended: when the pull request is found closed, finalize replies
    with a Conflict-class error and never with a success, and posts no
    comment; by then the Deployment row has been updated in full: the
    store holds it with the subdomain of the request and status Created,
    every other field as before. *)
Theorem C1_closed_pull_request_conflict
    {R : Type} `{KeepsUpdates R}
    (getClient : Config.t -> Environment.t -> result Client.t)
    (getRun : Client.t -> string -> string -> string -> string -> result WorkflowRun.t)
    config ga project cluster params decoded (r : R)
    owner name request env depl depl' r' client :
  PullRequestIs getClient config ga project cluster params decoded r
    true owner name request env depl depl' r' client ->
  let out := finalize getClient getRun config ga project cluster params decoded r in
  failsWith Conflict (fst out) /\
  isSuccess (fst out) = false /\
  commentsOf (sent (snd out)) = [] /\
  repo (snd out) = r' /\
  ReadDeployment (repo (snd out)) (Environment.ID env)
    (FinalizeDeploymentRequest.Namespace request) = Ok (finalized request depl) /\
  Deployment.Status (finalized request depl) = DeploymentStatusCreated /\
  Deployment.Subdomain (finalized request depl)
    = FinalizeDeploymentRequest.Subdomain request /\
  Deployment.frame (finalized request depl) = Deployment.frame depl.
Proof.
  intros Hclosed out. subst out.
  exits getClient getRun config ga project cluster params decoded r;
    try congruence.
  destruct (read_after_update r r' (Environment.ID env)
              (FinalizeDeploymentRequest.Namespace request)
              depl (finalized request depl) depl')
    as [_ Hread]; try assumption; [apply finalized_frame|].
  repeat split; try reflexivity; try assumption.
  eexists; split; [reflexivity|apply classOf_conflict].
Qed.

Lemma C1_closed_pull_request_conflict_witness :
  let getClient := Sample.getClient (Sample.client None Sample.closedPR None) in
  let getRun := Sample.getRun (Ok Sample.workflowRun) in
  let request := FinalizeDeploymentRequest.mk "pr-7" "foo.example.com" [] in
  PullRequestIs getClient Sample.config Sample.ga Sample.project Sample.cluster
    Sample.params (Some request) Sample.store
    true "acme" "shop" request Sample.env Sample.depl
    (finalized request Sample.depl)
    (MemRepo.mk [Sample.env] [finalized request Sample.depl])
    (Sample.client None Sample.closedPR None) /\
  let out := finalize getClient getRun Sample.config Sample.ga Sample.project
               Sample.cluster Sample.params (Some request) Sample.store in
  failsWith Conflict (fst out) /\
  isSuccess (fst out) = false /\
  commentsOf (sent (snd out)) = [] /\
  repo (snd out) = MemRepo.mk [Sample.env] [finalized request Sample.depl] /\
  ReadDeployment (repo (snd out)) (Environment.ID Sample.env)
    (FinalizeDeploymentRequest.Namespace request)
    = Ok (finalized request Sample.depl) /\
  Deployment.Status (finalized request Sample.depl) = DeploymentStatusCreated /\
  Deployment.Subdomain (finalized request Sample.depl)
    = FinalizeDeploymentRequest.Subdomain request /\
  Deployment.frame (finalized request Sample.depl) = Deployment.frame Sample.depl.
Proof.
  intros getClient getRun request.
  assert (Hclosed :
    PullRequestIs getClient Sample.config Sample.ga Sample.project Sample.cluster
      Sample.params (Some request) Sample.store
      true "acme" "shop" request Sample.env Sample.depl
      (finalized request Sample.depl)
      (MemRepo.mk [Sample.env] [finalized request Sample.depl])
      (Sample.client None Sample.closedPR None)).
  { repeat split. exists (PullRequest.mk (Some "closed")). split; reflexivity. }
  split; [exact Hclosed|].
  exact (C1_closed_pull_request_conflict getClient getRun
           Sample.config Sample.ga Sample.project Sample.cluster
           Sample.params (Some request) Sample.store
           "acme" "shop" request Sample.env Sample.depl
           (finalized request Sample.depl)
           (MemRepo.mk [Sample.env] [finalized request Sample.depl])
           (Sample.client None Sample.closedPR None) Hclosed).
Defined.

Lemma failsWith_internal err : failsWith Internal (HandleAPIError (NewErrInternal err)).
Proof. eexists; split; [reflexivity|apply classOf_internal]. Qed.

Lemma failsWith_conflict err :
  failsWith Conflict (HandleAPIError (NewErrPassThroughToClient err StatusConflict)).
Proof. eexists; split; [reflexivity|apply classOf_conflict]. Qed.

Lemma failsWith_inv cls e : failsWith cls (HandleAPIError e) -> classOf e = cls.
Proof. intros [e' [He Hc]]. now inversion He; subst. Qed.

(** ** Failing notification steps (C3) *)

(** C3, as stated, fails: the status check is set, the query of the pull
    request fails with a transport error, and the reply is a
    Conflict-class error, not an internal one. *)
Lemma C3_pull_request_query_error_is_not_internal :
  let client := Sample.client None (Fail "connection reset") None in
  let out := finalize (Sample.getClient client) (Sample.getRun (Ok Sample.workflowRun))
               Sample.config Sample.ga Sample.project Sample.cluster
               Sample.params (Sample.request "foo.example.com" []) Sample.store in
  Client.PullRequests_Get client "acme" "shop" 7 = Fail "connection reset" /\
  fst out = HandleAPIError
              (NewErrPassThroughToClient
                 "error fetching details of github PR for deployment ID: 5. Error: connection reset"
                 StatusConflict) /\
  failsWith Conflict (fst out) /\
  ~ failsWith Internal (fst out).
Proof.
  cbn. repeat split.
  - apply failsWith_conflict.
  - intros Hf. apply failsWith_inv in Hf. discriminate Hf.
Qed.

(** C3, amended: once the Deployment is updated and the client obtained,
    an error of the status-check update, of the workflow-run lookup or of
    the comment creation is surfaced as the internal error wrapping it,
    while an error of the pull-request query is surfaced as a
    Conflict-class error; in each case finalize does not report success,
    and in the first three no comment is sent. *)
Theorem C3_notification_step_errors
    {R : Type} `{EnvironmentRepository R}
    (getClient : Config.t -> Environment.t -> result Client.t)
    (getRun : Client.t -> string -> string -> string -> string -> result WorkflowRun.t)
    config ga project cluster params decoded (r : R)
    owner name request env depl depl' r' client err :
  Updated ga project cluster params decoded r owner name request env depl depl' r' ->
  getClient config env = Ok client ->
  let out := finalize getClient getRun config ga project cluster params decoded r in
  (* (i) the status-check update *)
  (Client.Repositories_CreateDeploymentStatus client
     (Environment.GitRepoOwner env) (Environment.GitRepoName env)
     (Deployment.GHDeploymentID depl')
     (DeploymentStatusRequest.mk "success" (Deployment.Subdomain depl')) = Some err ->
   fst out = HandleAPIError (NewErrInternal err) /\
   failsWith Internal (fst out) /\ isSuccess (fst out) = false /\
   commentsOf (sent (snd out)) = []) /\
  (* (ii) the pull-request state query *)
  (StatusSet getClient config ga project cluster params decoded r
     owner name request env depl depl' r' client ->
   Client.PullRequests_Get client owner name (int (Deployment.PullRequestID depl'))
     = Fail err ->
   fst out = HandleAPIError (prFetchError depl' err) /\
   failsWith Conflict (fst out) /\ isSuccess (fst out) = false /\
   commentsOf (sent (snd out)) = []) /\
  (* (iii) the workflow-run lookup *)
  (PullRequestIs getClient config ga project cluster params decoded r
     false owner name request env depl depl' r' client ->
   getRun client (Deployment.RepoOwner depl') (Deployment.RepoName depl')
     (workflowFilename env) (Deployment.PRBranchFrom depl') = Fail err ->
   fst out = HandleAPIError (NewErrInternal err) /\
   failsWith Internal (fst out) /\ isSuccess (fst out) = false /\
   commentsOf (sent (snd out)) = []) /\
  (* (iv) the comment creation *)
  (forall workflowRun,
   RunFound getClient getRun config ga project cluster params decoded r
     owner name request env depl depl' r' client workflowRun ->
   Client.Issues_CreateComment client
     (Environment.GitRepoOwner env) (Environment.GitRepoName env)
     (int (Deployment.PullRequestID (rendered depl')))
     (commentBody config project cluster (rendered depl') workflowRun
        (FinalizeDeploymentRequest.SuccessfulResources request)) = Some err ->
   fst out = HandleAPIError (NewErrInternal err) /\
   failsWith Internal (fst out) /\ isSuccess (fst out) = false).
Proof.
  intros Hupd Hclient out. subst out.
  repeat split; intros;
    exits getClient getRun config ga project cluster params decoded r;
    try congruence;
    try apply failsWith_internal;
    try apply failsWith_conflict;
    try reflexivity.
Qed.

Lemma Sample_Updated :
  Updated Sample.ga Sample.project Sample.cluster Sample.params
    (Some Sample.finalizeRequest) Sample.store
    "acme" "shop" Sample.finalizeRequest Sample.env Sample.depl
    Sample.finalizedDepl Sample.finalizedStore.
Proof. repeat split. Defined.

Lemma Sample_StatusSet pr comment :
  StatusSet (Sample.getClient (Sample.client None pr comment))
    Sample.config Sample.ga Sample.project Sample.cluster Sample.params
    (Some Sample.finalizeRequest) Sample.store
    "acme" "shop" Sample.finalizeRequest Sample.env Sample.depl
    Sample.finalizedDepl Sample.finalizedStore (Sample.client None pr comment).
Proof. repeat split. Defined.

Lemma Sample_PullRequestOpen comment :
  PullRequestIs (Sample.getClient (Sample.client None Sample.openPR comment))
    Sample.config Sample.ga Sample.project Sample.cluster Sample.params
    (Some Sample.finalizeRequest) Sample.store false
    "acme" "shop" Sample.finalizeRequest Sample.env Sample.depl
    Sample.finalizedDepl Sample.finalizedStore
    (Sample.client None Sample.openPR comment).
Proof.
  split; [apply Sample_StatusSet|].
  exists (PullRequest.mk (Some "open")). split; reflexivity.
Defined.

Lemma Sample_RunFound comment :
  RunFound (Sample.getClient (Sample.client None Sample.openPR comment))
    (Sample.getRun (Ok Sample.workflowRun))
    Sample.config Sample.ga Sample.project Sample.cluster Sample.params
    (Some Sample.finalizeRequest) Sample.store
    "acme" "shop" Sample.finalizeRequest Sample.env Sample.depl
    Sample.finalizedDepl Sample.finalizedStore
    (Sample.client None Sample.openPR comment) Sample.workflowRun.
Proof. split; [apply Sample_PullRequestOpen|reflexivity]. Defined.

Lemma C3_notification_step_errors_witness :
  (let out := Sample.serve (Sample.client (Some "status refused") Sample.openPR None)
                (Ok Sample.workflowRun) in
   fst out = HandleAPIError (NewErrInternal "status refused") /\
   failsWith Internal (fst out) /\ isSuccess (fst out) = false /\
   commentsOf (sent (snd out)) = []) /\
  (let out := Sample.serve (Sample.client None (Fail "connection reset") None)
                (Ok Sample.workflowRun) in
   fst out = HandleAPIError (prFetchError Sample.finalizedDepl "connection reset") /\
   failsWith Conflict (fst out) /\ isSuccess (fst out) = false /\
   commentsOf (sent (snd out)) = []) /\
  (let out := Sample.serve (Sample.client None Sample.openPR None)
                (Fail "no workflow run") in
   fst out = HandleAPIError (NewErrInternal "no workflow run") /\
   failsWith Internal (fst out) /\ isSuccess (fst out) = false /\
   commentsOf (sent (snd out)) = []) /\
  (let out := Sample.serve (Sample.client None Sample.openPR (Some "comment refused"))
                (Ok Sample.workflowRun) in
   fst out = HandleAPIError (NewErrInternal "comment refused") /\
   failsWith Internal (fst out) /\ isSuccess (fst out) = false).
Proof.
  split; [|split; [|split]].
  - refine (proj1 (C3_notification_step_errors
             (Sample.getClient (Sample.client (Some "status refused") Sample.openPR None))
             (Sample.getRun (Ok Sample.workflowRun))
             Sample.config Sample.ga Sample.project Sample.cluster Sample.params
             (Some Sample.finalizeRequest) Sample.store
             "acme" "shop" Sample.finalizeRequest Sample.env Sample.depl
             Sample.finalizedDepl Sample.finalizedStore
             (Sample.client (Some "status refused") Sample.openPR None)
             "status refused" Sample_Updated eq_refl) eq_refl).
  - refine (proj1 (proj2 (C3_notification_step_errors
             (Sample.getClient (Sample.client None (Fail "connection reset") None))
             (Sample.getRun (Ok Sample.workflowRun))
             Sample.config Sample.ga Sample.project Sample.cluster Sample.params
             (Some Sample.finalizeRequest) Sample.store
             "acme" "shop" Sample.finalizeRequest Sample.env Sample.depl
             Sample.finalizedDepl Sample.finalizedStore
             (Sample.client None (Fail "connection reset") None)
             "connection reset" Sample_Updated eq_refl))
             (Sample_StatusSet _ _) eq_refl).
  - refine (proj1 (proj2 (proj2 (C3_notification_step_errors
             (Sample.getClient (Sample.client None Sample.openPR None))
             (Sample.getRun (Fail "no workflow run"))
             Sample.config Sample.ga Sample.project Sample.cluster Sample.params
             (Some Sample.finalizeRequest) Sample.store
             "acme" "shop" Sample.finalizeRequest Sample.env Sample.depl
             Sample.finalizedDepl Sample.finalizedStore
             (Sample.client None Sample.openPR None)
             "no workflow run" Sample_Updated eq_refl)))
             (Sample_PullRequestOpen _) eq_refl).
  - refine (proj2 (proj2 (proj2 (C3_notification_step_errors
             (Sample.getClient (Sample.client None Sample.openPR (Some "comment refused")))
             (Sample.getRun (Ok Sample.workflowRun))
             Sample.config Sample.ga Sample.project Sample.cluster Sample.params
             (Some Sample.finalizeRequest) Sample.store
             "acme" "shop" Sample.finalizeRequest Sample.env Sample.depl
             Sample.finalizedDepl Sample.finalizedStore
             (Sample.client None Sample.openPR (Some "comment refused"))
             "comment refused" Sample_Updated eq_refl)))
             Sample.workflowRun (Sample_RunFound _) eq_refl).
Defined.

(** ** Strings *)

Lemma append_assoc (s1 s2 s3 : string) : (s1 ++ s2) ++ s3 = s1 ++ (s2 ++ s3).
Proof. induction s1 as [|c s1 IH]; cbn; [reflexivity|now rewrite IH]. Qed.

Lemma append_nil_r (s : string) : s ++ "" = s.
Proof. induction s as [|c s IH]; cbn; [reflexivity|now rewrite IH]. Qed.


Lemma contains_here needle rest : contains needle (needle ++ rest).
Proof. exists "", rest. reflexivity. Qed.

Lemma contains_after needle before text :
  contains needle text -> contains needle (before ++ text).
Proof.
  intros [b [a ->]]. exists (before ++ b), a. now rewrite append_assoc.
Qed.

Lemma contains_before needle text rest :
  contains needle text -> contains needle (text ++ rest).
Proof.
  intros [b [a ->]]. exists b, (a ++ rest). now rewrite !append_assoc.
Qed.

(** ** The shape of the comment *)

Section CommentShape.
Variable config : Config.t.
Variable project : Project.t.
Variable cluster : Cluster.t.
Variable depl : Deployment.t.

Lemma commentTable_text workflowRun :
  commentTable config depl workflowRun =
  ("## Porter Preview Environments" ++ nl ++
   check_mark ++ " All changes deployed successfully" ++ nl ++
   "||Deployment Information|" ++ nl ++
   "|-|-|" ++ nl ++
   "| Latest SHA | ") ++
  ("[`" ++ Deployment.CommitSHA depl ++ "`](https://github.com/" ++
   Deployment.RepoOwner depl ++ "/" ++ Deployment.RepoName depl ++ "/commit/" ++
   Deployment.CommitSHA depl ++ ")") ++
  (" |" ++ nl) ++
  ("| Live URL | " ++ Deployment.Subdomain depl ++ " |") ++
  (nl ++ "| Build Logs | " ++ WorkflowRun.GetHTMLURL workflowRun ++ " |" ++ nl ++
   "| Porter Deployments URL | " ++ Config.ServerURL config ++
   "/preview-environments/details/" ++ Deployment.Namespace depl ++
   "?environment_id=" ++ fmt.decimal (Deployment.EnvironmentID depl) ++ " |").
Proof.
  unfold commentTable, commentFormat. cbn.
  repeat (rewrite ?append_assoc; cbn). reflexivity.
Qed.



Lemma appendResource_link body res :
  appendResource config project cluster depl body res =
  body ++ snd (resourceLink config project cluster depl res).
Proof.
  unfold appendResource, resourceLink.
  now destruct (SuccessfulResource.ReleaseType res =? "job")%string.
Qed.

Lemma fold_appendResource resources body :
  fold_left (appendResource config project cluster depl) resources body =
  body ++ joinLines (map snd (resourceLinks config project cluster depl resources)).
Proof.
  revert body. induction resources as [|res resources IH]; intros body; cbn.
  - now rewrite append_nil_r.
  - rewrite IH, appendResource_link. apply append_assoc.
Qed.

(** The comment is the table, followed, when there are resources, by the
    heading and one line per resource in order. *)
Lemma commentBody_lines workflowRun resources :
  commentBody config project cluster depl workflowRun resources =
  commentTable config depl workflowRun ++
  match resources with
  | [] => ""
  | _ => resourcesHeading ++
         joinLines (map snd (resourceLinks config project cluster depl resources))
  end.
Proof.
  unfold commentBody. destruct resources as [|res resources].
  - cbn. now rewrite append_nil_r.
  - cbn [length Nat.ltb Nat.leb]. rewrite fold_appendResource. apply append_assoc.
Qed.

Lemma commentBody_contains_commit workflowRun resources :
  contains ("[`" ++ Deployment.CommitSHA depl ++ "`](https://github.com/" ++
            Deployment.RepoOwner depl ++ "/" ++ Deployment.RepoName depl ++
            "/commit/" ++ Deployment.CommitSHA depl ++ ")")
           (commentBody config project cluster depl workflowRun resources).
Proof.
  rewrite commentBody_lines, commentTable_text.
  apply contains_before, contains_after, contains_here.
Qed.

Lemma commentBody_contains_live_url workflowRun resources :
  contains ("| Live URL | " ++ Deployment.Subdomain depl ++ " |")
           (commentBody config project cluster depl workflowRun resources).
Proof.
  rewrite commentBody_lines, commentTable_text.
  apply contains_before. do 3 apply contains_after. apply contains_here.
Qed.
End CommentShape.

(** What a store that keeps its updates answers to the update of the
    handler. *)
Lemma Updated_answer {R : Type} `{KeepsUpdates R}
    ga project cluster params decoded (r : R) owner name request env depl depl' r' :
  Updated ga project cluster params decoded r owner name request env depl depl' r' ->
  depl' = finalized request depl /\
  ReadDeployment r' (Environment.ID env) (FinalizeDeploymentRequest.Namespace request)
    = Ok (finalized request depl).
Proof.
  intros [(_ & _ & _ & Hread) Hupd].
  exact (read_after_update r r' _ _ depl (finalized request depl) depl'
           Hread (finalized_frame request depl) Hupd).
Qed.

(** ** The workflow-run lookup (C8) *)







(** ** The fields finalize leaves alone (C9) *)

(** C9: a call of finalize either leaves the store as it was, or has
    written back the Deployment it read with [Subdomain] and [Status]
    set and every other field (ID, environment ID, namespace,
    pull-request number, GHDeploymentID, repository owner and name,
    commit SHA, source branch) as read; the store then holds that row. *)
Theorem C9_finalize_frame
    {R : Type} `{KeepsUpdates R}
    (getClient : Config.t -> Environment.t -> result Client.t)
    (getRun : Client.t -> string -> string -> string -> string -> result WorkflowRun.t)
    config ga project cluster params decoded (r : R) :
  let out := finalize getClient getRun config ga project cluster params decoded r in
  repo (snd out) = r \/
  exists owner name request env depl written,
    Resolved ga project cluster params decoded r owner name request env depl /\
    UpdateDeployment r written = Ok (written, repo (snd out)) /\
    ReadDeployment (repo (snd out)) (Environment.ID env)
      (FinalizeDeploymentRequest.Namespace request) = Ok written /\
    Deployment.Subdomain written = FinalizeDeploymentRequest.Subdomain request /\
    Deployment.Status written = DeploymentStatusCreated /\
    Deployment.ID written = Deployment.ID depl /\
    Deployment.EnvironmentID written = Deployment.EnvironmentID depl /\
    Deployment.Namespace written = Deployment.Namespace depl /\
    Deployment.PullRequestID written = Deployment.PullRequestID depl /\
    Deployment.GHDeploymentID written = Deployment.GHDeploymentID depl /\
    Deployment.RepoOwner written = Deployment.RepoOwner depl /\
    Deployment.RepoName written = Deployment.RepoName depl /\
    Deployment.CommitSHA written = Deployment.CommitSHA depl /\
    Deployment.PRBranchFrom written = Deployment.PRBranchFrom depl.
Proof.
  intros out. subst out.
  assert (Hwritten : forall owner name request env depl depl' r',
            Updated ga project cluster params decoded r
              owner name request env depl depl' r' ->
            exists owner name request env depl written,
              Resolved ga project cluster params decoded r owner name request env depl /\
              UpdateDeployment r written = Ok (written, r') /\
              ReadDeployment r' (Environment.ID env)
                (FinalizeDeploymentRequest.Namespace request) = Ok written /\
              Deployment.Subdomain written = FinalizeDeploymentRequest.Subdomain request /\
              Deployment.Status written = DeploymentStatusCreated /\
              Deployment.ID written = Deployment.ID depl /\
              Deployment.EnvironmentID written = Deployment.EnvironmentID depl /\
              Deployment.Namespace written = Deployment.Namespace depl /\
              Deployment.PullRequestID written = Deployment.PullRequestID depl /\
              Deployment.GHDeploymentID written = Deployment.GHDeploymentID depl /\
              Deployment.RepoOwner written = Deployment.RepoOwner depl /\
              Deployment.RepoName written = Deployment.RepoName depl /\
              Deployment.CommitSHA written = Deployment.CommitSHA depl /\
              Deployment.PRBranchFrom written = Deployment.PRBranchFrom depl).
  { intros owner name request env depl depl' r' Hupd.
    destruct (Updated_answer _ _ _ _ _ _ _ _ _ _ _ _ _ Hupd) as [-> Hread].
    destruct Hupd as [Hres Hupd].
    exists owner, name, request, env, depl, (finalized request depl).
    repeat split; try assumption; apply Hres. }
  pose proof (finalize_Run getClient getRun config ga project cluster params decoded r) as HR.
  cbv zeta in HR.
  destruct (finalize getClient getRun config ga project cluster params decoded r)
    as [resp [store calls]].
  cbn [fst snd repo sent] in *.
  inversion HR; subst; clear HR;
    try (left; reflexivity);
    right; eapply Hwritten;
    unfold RunFound, PullRequestIs, StatusSet in *;
    repeat match goal with Hc : _ /\ _ |- _ => destruct Hc end;
    eassumption.
Qed.

Lemma C9_finalize_frame_witness :
  let out := Sample.serve (Sample.client None Sample.closedPR None) (Ok Sample.workflowRun) in
  (repo (snd out) = Sample.store \/
   exists owner name request env depl written,
     Resolved Sample.ga Sample.project Sample.cluster Sample.params
       (Some Sample.finalizeRequest) Sample.store owner name request env depl /\
     UpdateDeployment Sample.store written = Ok (written, repo (snd out)) /\
     ReadDeployment (repo (snd out)) (Environment.ID env)
       (FinalizeDeploymentRequest.Namespace request) = Ok written /\
     Deployment.Subdomain written = FinalizeDeploymentRequest.Subdomain request /\
     Deployment.Status written = DeploymentStatusCreated /\
     Deployment.ID written = Deployment.ID depl /\
     Deployment.EnvironmentID written = Deployment.EnvironmentID depl /\
     Deployment.Namespace written = Deployment.Namespace depl /\
     Deployment.PullRequestID written = Deployment.PullRequestID depl /\
     Deployment.GHDeploymentID written = Deployment.GHDeploymentID depl /\
     Deployment.RepoOwner written = Deployment.RepoOwner depl /\
     Deployment.RepoName written = Deployment.RepoName depl /\
     Deployment.CommitSHA written = Deployment.CommitSHA depl /\
     Deployment.PRBranchFrom written = Deployment.PRBranchFrom depl) /\
  repo (snd out) = Sample.finalizedStore /\
  Sample.finalizedStore <> Sample.store.
Proof.
  split; [|split; [reflexivity|discriminate]].
  exact (C9_finalize_frame
           (Sample.getClient (Sample.client None Sample.closedPR None))
           (Sample.getRun (Ok Sample.workflowRun))
           Sample.config Sample.ga Sample.project Sample.cluster Sample.params
           (Some Sample.finalizeRequest) Sample.store).
Defined.

(** ** The empty subdomain (C2) *)

(** C2, as stated, fails: finalize with an empty subdomain succeeds, and
    the Deployment it has stored carries the empty string, not the
    marker. *)
Lemma C2_stored_subdomain_is_empty :
  let out := finalize (Sample.getClient (Sample.client None Sample.openPR None))
               (Sample.getRun (Ok Sample.workflowRun))
               Sample.config Sample.ga Sample.project Sample.cluster
               Sample.params (Sample.request "" []) Sample.store in
  isSuccess (fst out) = true /\
  storedSubdomain (repo (snd out)) 3 "pr-7" = Some "" /\
  storedSubdomain (repo (snd out)) 3 "pr-7" <> Some ingressDisabled.
Proof.
  cbn. repeat split. discriminate.
Qed.

Lemma rendered_empty depl :
  Deployment.Subdomain depl = "" ->
  Deployment.Subdomain (rendered depl) = ingressDisabled.
Proof. unfold rendered. now intros ->. Qed.

(** C2, amended: for a finalize call with an empty subdomain that gets
    as far as the comment, the comment shows the marker
    [*Ingress is disabled for this deployment*] as live URL, and the
    Deployment view returned on success carries the marker as subdomain,
    never the empty string; the row in the store keeps the empty
    subdomain of the request. *)
Theorem C2_empty_subdomain_rendering
    {R : Type} `{KeepsUpdates R}
    (getClient : Config.t -> Environment.t -> result Client.t)
    (getRun : Client.t -> string -> string -> string -> string -> result WorkflowRun.t)
    config ga project cluster params decoded (r : R)
    owner name request env depl depl' r' client workflowRun :
  RunFound getClient getRun config ga project cluster params decoded r
    owner name request env depl depl' r' client workflowRun ->
  FinalizeDeploymentRequest.Subdomain request = "" ->
  let out := finalize getClient getRun config ga project cluster params decoded r in
  (exists body,
     commentsOf (sent (snd out)) = [body] /\
     contains ("| Live URL | " ++ "*Ingress is disabled for this deployment*" ++ " |") body) /\
  (forall v, fst out = WriteResult v ->
     DeploymentView.Subdomain v = "*Ingress is disabled for this deployment*" /\
     DeploymentView.Subdomain v <> "") /\
  (Client.Issues_CreateComment client
     (Environment.GitRepoOwner env) (Environment.GitRepoName env)
     (int (Deployment.PullRequestID (rendered depl')))
     (commentBody config project cluster (rendered depl') workflowRun
        (FinalizeDeploymentRequest.SuccessfulResources request)) = None ->
   isSuccess (fst out) = true) /\
  storedSubdomain (repo (snd out)) (Environment.ID env)
    (FinalizeDeploymentRequest.Namespace request) = Some "".
Proof.
  intros Hrun Hempty out. subst out.
  assert (Hanswer : depl' = finalized request depl /\
                    ReadDeployment r' (Environment.ID env)
                      (FinalizeDeploymentRequest.Namespace request)
                      = Ok (finalized request depl)).
  { destruct Hrun as [[[Hupd _] _] _]. now apply Updated_answer in Hupd. }
  destruct Hanswer as [Hanswer Hread].
  assert (Hsub : Deployment.Subdomain (rendered depl') = ingressDisabled).
  { apply rendered_empty. now rewrite Hanswer. }
  assert (Hstored : storedSubdomain r' (Environment.ID env)
                      (FinalizeDeploymentRequest.Namespace request) = Some "").
  { unfold storedSubdomain. rewrite Hread. cbn. now rewrite Hempty. }
  assert (Hbody : contains ("| Live URL | " ++ ingressDisabled ++ " |")
                    (commentBody config project cluster (rendered depl') workflowRun
                       (FinalizeDeploymentRequest.SuccessfulResources request))).
  { rewrite <- Hsub. apply commentBody_contains_live_url. }
  exits getClient getRun config ga project cluster params decoded r;
    try congruence;
    (split; [eexists; split; [reflexivity|exact Hbody]|]);
    (split; [intros v Hv; try discriminate Hv|]);
    try (split; [intros; try reflexivity; congruence|exact Hstored]).
  injection Hv as <-. cbn [ToDeploymentType DeploymentView.Subdomain].
  rewrite Hsub. split; [reflexivity|discriminate].
Qed.

Lemma C2_empty_subdomain_rendering_witness :
  let request := FinalizeDeploymentRequest.mk "pr-7" "" [] in
  let client := Sample.client None Sample.openPR None in
  let out := finalize (Sample.getClient client) (Sample.getRun (Ok Sample.workflowRun))
               Sample.config Sample.ga Sample.project Sample.cluster
               Sample.params (Some request) Sample.store in
  (exists body,
     commentsOf (sent (snd out)) = [body] /\
     contains ("| Live URL | " ++ "*Ingress is disabled for this deployment*" ++ " |") body) /\
  (forall v, fst out = WriteResult v ->
     DeploymentView.Subdomain v = "*Ingress is disabled for this deployment*" /\
     DeploymentView.Subdomain v <> "") /\
  isSuccess (fst out) = true /\
  storedSubdomain (repo (snd out)) 3 "pr-7" = Some "".
Proof.
  intros request client out.
  assert (Hrun :
    RunFound (Sample.getClient client) (Sample.getRun (Ok Sample.workflowRun))
      Sample.config Sample.ga Sample.project Sample.cluster Sample.params
      (Some request) Sample.store
      "acme" "shop" request Sample.env Sample.depl (finalized request Sample.depl)
      (MemRepo.mk [Sample.env] [finalized request Sample.depl])
      client Sample.workflowRun).
  { repeat split. exists (PullRequest.mk (Some "open")). split; reflexivity. }
  destruct (C2_empty_subdomain_rendering
              (Sample.getClient client) (Sample.getRun (Ok Sample.workflowRun))
              Sample.config Sample.ga Sample.project Sample.cluster Sample.params
              (Some request) Sample.store
              "acme" "shop" request Sample.env Sample.depl (finalized request Sample.depl)
              (MemRepo.mk [Sample.env] [finalized request Sample.depl])
              client Sample.workflowRun Hrun eq_refl)
    as (Hbody & Hview & Hsuccess & Hstored).
  split; [exact Hbody|].
  split; [exact Hview|].
  split; [exact (Hsuccess eq_refl)|exact Hstored].
Defined.

(** ** The summary comment (C5) *)

Lemma rendered_nonempty depl :
  Deployment.Subdomain depl <> "" -> rendered depl = depl.
Proof.
  unfold rendered. intros Hne.
  destruct (Deployment.Subdomain depl =? "")%string eqn:E; [|reflexivity].
  now apply String.eqb_eq in E.
Qed.

(** C5: for a finalize call on a Deployment at commit [abc123], with
    live URL [foo.example.com] and the one successful resource
    [worker] of kind [job], the comment sent contains the short link of
    the commit and the live URL, and its resource list is exactly one
    line, in the job template; no line is in the application template. *)
Theorem C5_summary_comment
    {R : Type} `{KeepsUpdates R}
    (getClient : Config.t -> Environment.t -> result Client.t)
    (getRun : Client.t -> string -> string -> string -> string -> result WorkflowRun.t)
    config ga project cluster params decoded (r : R)
    owner name request env depl depl' r' client workflowRun :
  RunFound getClient getRun config ga project cluster params decoded r
    owner name request env depl depl' r' client workflowRun ->
  Deployment.CommitSHA depl = "abc123" ->
  FinalizeDeploymentRequest.Subdomain request = "foo.example.com" ->
  FinalizeDeploymentRequest.SuccessfulResources request
    = [SuccessfulResource.mk "worker" "job"] ->
  let out := finalize getClient getRun config ga project cluster params decoded r in
  exists body links,
    commentsOf (sent (snd out)) = [body] /\
    contains ("[`abc123`](https://github.com/" ++ Deployment.RepoOwner depl ++ "/" ++
              Deployment.RepoName depl ++ "/commit/abc123)") body /\
    contains ("| Live URL | " ++ "foo.example.com" ++ " |") body /\
    body = commentTable config (finalized request depl) workflowRun ++
           resourcesHeading ++ joinLines (map snd links) /\
    links = resourceLinks config project cluster (finalized request depl)
              (FinalizeDeploymentRequest.SuccessfulResources request) /\
    links = [(JobStyle,
              "- [`worker`](" ++ Config.ServerURL config ++ "/jobs/" ++
              Cluster.Name cluster ++ "/" ++ Deployment.Namespace depl ++
              "/worker?project_id=" ++ fmt.decimal (Project.ID project) ++ ")" ++ nl)] /\
    countStyle JobStyle links = 1 /\
    countStyle ApplicationStyle links = 0.
Proof.
  intros Hrun Hsha Hurl Hres out. subst out.
  assert (Hanswer : depl' = finalized request depl).
  { destruct Hrun as [[[Hupd _] _] _]. now apply Updated_answer in Hupd. }
  assert (Hrendered : rendered depl' = finalized request depl).
  { rewrite Hanswer. apply rendered_nonempty. cbn. now rewrite Hurl. }
  pose (body := commentBody config project cluster (finalized request depl) workflowRun
                  (FinalizeDeploymentRequest.SuccessfulResources request)).
  assert (Hsent : commentsOf
            (sent (snd (finalize getClient getRun config ga project cluster params decoded r)))
            = [body]).
  { subst body. rewrite <- Hrendered.
    exits getClient getRun config ga project cluster params decoded r;
      try congruence; reflexivity. }
  exists body,
    (resourceLinks config project cluster (finalized request depl)
       (FinalizeDeploymentRequest.SuccessfulResources request)).
  split; [exact Hsent|].
  split.
  { pose proof (commentBody_contains_commit config project cluster
                  (finalized request depl) workflowRun
                  (FinalizeDeploymentRequest.SuccessfulResources request)) as Hc.
    cbn in Hc. rewrite Hsha in Hc. exact Hc. }
  split.
  { pose proof (commentBody_contains_live_url config project cluster
                  (finalized request depl) workflowRun
                  (FinalizeDeploymentRequest.SuccessfulResources request)) as Hc.
    cbn in Hc. rewrite Hurl in Hc. exact Hc. }
  split.
  { subst body. rewrite commentBody_lines. now rewrite Hres. }
  split; [reflexivity|].
  rewrite Hres. repeat split.
Qed.

Lemma C5_summary_comment_witness :
  let out := Sample.serve (Sample.client None Sample.openPR None) (Ok Sample.workflowRun) in
  exists body links,
    commentsOf (sent (snd out)) = [body] /\
    contains ("[`abc123`](https://github.com/" ++ "acme" ++ "/" ++ "shop" ++ "/commit/abc123)")
             body /\
    contains ("| Live URL | " ++ "foo.example.com" ++ " |") body /\
    body = commentTable Sample.config Sample.finalizedDepl Sample.workflowRun ++
           resourcesHeading ++ joinLines (map snd links) /\
    links = resourceLinks Sample.config Sample.project Sample.cluster
              Sample.finalizedDepl [Sample.worker] /\
    links = [(JobStyle,
              "- [`worker`](" ++ "https://dashboard.example.com" ++ "/jobs/" ++
              "prod" ++ "/" ++ "pr-7" ++
              "/worker?project_id=" ++ "1" ++ ")" ++ nl)] /\
    countStyle JobStyle links = 1 /\
    countStyle ApplicationStyle links = 0.
Proof.
  exact (C5_summary_comment
           (Sample.getClient (Sample.client None Sample.openPR None))
           (Sample.getRun (Ok Sample.workflowRun))
           Sample.config Sample.ga Sample.project Sample.cluster Sample.params
           (Some Sample.finalizeRequest) Sample.store
           "acme" "shop" Sample.finalizeRequest Sample.env Sample.depl
           Sample.finalizedDepl Sample.finalizedStore
           (Sample.client None Sample.openPR None) Sample.workflowRun
           (Sample_RunFound None) eq_refl eq_refl eq_refl).
Defined.

(** The comment of the sample request, in full. *)
Example sample_comment :
  commentsOf (sent (snd (Sample.serve (Sample.client None Sample.openPR None)
                           (Ok Sample.workflowRun)))) =
  ["## Porter Preview Environments" ++ nl ++
   check_mark ++ " All changes deployed successfully" ++ nl ++
   "||Deployment Information|" ++ nl ++
   "|-|-|" ++ nl ++
   "| Latest SHA | [`abc123`](https://github.com/acme/shop/commit/abc123) |" ++ nl ++
   "| Live URL | foo.example.com |" ++ nl ++
   "| Build Logs | https://github.com/acme/shop/actions/runs/1 |" ++ nl ++
   "| Porter Deployments URL | https://dashboard.example.com/preview-environments/details/pr-7?environment_id=3 |" ++
   nl ++ "#### Successfully deployed resources" ++ nl ++
   "- [`worker`](https://dashboard.example.com/jobs/prod/pr-7/worker?project_id=1)" ++ nl].
Proof. reflexivity. Qed.

(** ** Job links and application links (C10) *)





(** The comment for one resource of each of the release types [job],
    [Job], [cronjob] and the empty one: only the first is a job link. *)
Example sample_resource_lines :
  commentsOf (sent (snd (finalize
    (Sample.getClient (Sample.client None Sample.openPR None))
    (Sample.getRun (Ok Sample.workflowRun))
    Sample.config Sample.ga Sample.project Sample.cluster Sample.params
    (Sample.request "foo.example.com"
       [SuccessfulResource.mk "a" "job"; SuccessfulResource.mk "b" "Job";
        SuccessfulResource.mk "c" "cronjob"; SuccessfulResource.mk "d" ""])
    Sample.store))) =
  [commentTable Sample.config Sample.finalizedDepl Sample.workflowRun ++
   nl ++ "#### Successfully deployed resources" ++ nl ++
   "- [`a`](https://dashboard.example.com/jobs/prod/pr-7/a?project_id=1)" ++ nl ++
   "- [`b`](https://dashboard.example.com/applications/prod/pr-7/b?project_id=1)" ++ nl ++
   "- [`c`](https://dashboard.example.com/applications/prod/pr-7/c?project_id=1)" ++ nl ++
   "- [`d`](https://dashboard.example.com/applications/prod/pr-7/d?project_id=1)" ++ nl].
Proof. reflexivity. Qed.

(** ** The stream of a provisioning run (C6) *)

Lemma attachedStreams_name (Conn : Type) URLParam upgrade stream :
  Provision.attachedStreams
    (Provision.HandleGetProvisioningLogs Conn URLParam upgrade stream) =
  [URLParam "kind" ++ "-" ++ URLParam "project_id" ++ "-" ++ URLParam "infra_id"].
Proof.
  unfold Provision.HandleGetProvisioningLogs.
  destruct upgrade as [conn|err]; cbn;
    match goal with |- context [stream ?n ?c] => destruct (stream n c) end;
    cbn; now rewrite append_nil_r.
Qed.


Section StreamLemmas.
Variables AWSIntegration Agent Job InfraExternal Substrate Conn : Type.
Variable strconv_ParseUint : string -> result N.
Variable json_Decode : Provision.CreateECRInfra.t -> result Provision.CreateECRInfra.t.
Variable validator_Struct : Provision.CreateECRInfra.t -> option error.
Variable ToAWSInfra : Provision.CreateECRInfra.t -> result Provision.AWSInfra.t.
Variables CreateAWSInfra1 CreateAWSInfra2 :
  Provision.AWSInfra.t -> result Provision.AWSInfra.t.
Variable ReadAWSIntegration : N -> result AWSIntegration.
Variable GetAgentInClusterConfig : result Agent.
Variable ProvisionECR :
  Agent -> Substrate -> N -> AWSIntegration -> string -> result (Job * Substrate).
Variable Externalize : Provision.AWSInfra.t -> InfraExternal.
Variable json_Encode : InfraExternal -> option error.

End StreamLemmas.


(** ** Launching a provisioning run (C7) *)

(** C7, as stated, fails: a registry job for the same project and the
    same registry is in flight, the substrate rejects the second one, and
    the launch reports an internal error, not a conflict. *)
Lemma C7_job_in_flight_is_not_a_conflict :
  let k := [(1%N, "registry")] in
  let out := ProvisionSample.launch k in
  Substrate.inFlight k 1 "registry" = true /\
  out = ([Provision.handleErrorInternal Substrate.alreadyExists], k) /\
  map Provision.classOfEffect (fst out) = [Some Internal] /\
  ~ In (Some Conflict) (map Provision.classOfEffect (fst out)).
Proof.
  cbn. repeat split. intros [Hc|[]]. discriminate Hc.
Qed.

Section LaunchLemmas.
Variables AWSIntegration Agent Job InfraExternal Substrate : Type.
Variable strconv_ParseUint : string -> result N.
Variable json_Decode : Provision.CreateECRInfra.t -> result Provision.CreateECRInfra.t.
Variable validator_Struct : Provision.CreateECRInfra.t -> option error.
Variable ToAWSInfra : Provision.CreateECRInfra.t -> result Provision.AWSInfra.t.
Variable CreateAWSInfra : Provision.AWSInfra.t -> result Provision.AWSInfra.t.
Variable ReadAWSIntegration : N -> result AWSIntegration.
Variable GetAgentInClusterConfig : result Agent.
Variable ProvisionECR :
  Agent -> Substrate -> N -> AWSIntegration -> string -> result (Job * Substrate).
Variable Externalize : Provision.AWSInfra.t -> InfraExternal.
Variable json_Encode : InfraExternal -> option error.

(** C7, amended: the launch handler makes no in-flight check of its own
    and never reports a Conflict-class error, whatever the substrate
    holds; when the substrate rejects the job, for whatever reason, the
    launch fails with the Internal-class error of [handleErrorInternal]
    and the substrate is as before; when it accepts the job, the launch
    answers 201 Created. *)
Theorem C7_launch_errors (project_id : string) (k : Substrate) :
  let out := Provision.HandleProvisionAWSECRInfra AWSIntegration Agent Job InfraExternal
               Substrate strconv_ParseUint json_Decode validator_Struct ToAWSInfra
               CreateAWSInfra ReadAWSIntegration GetAgentInClusterConfig ProvisionECR
               Externalize json_Encode project_id k in
  ~ In (Some Conflict) (map Provision.classOfEffect (fst out)) /\
  forall projID form converted infra awsInt agent,
    strconv_ParseUint project_id = Ok projID ->
    projID <> 0%N ->
    json_Decode (Provision.CreateECRInfra.mk projID "" 0) = Ok form ->
    validator_Struct form = None ->
    ToAWSInfra form = Ok converted ->
    CreateAWSInfra converted = Ok infra ->
    ReadAWSIntegration (Provision.AWSInfra.AWSIntegrationID infra) = Ok awsInt ->
    GetAgentInClusterConfig = Ok agent ->
    (forall err,
       ProvisionECR agent k projID awsInt (Provision.CreateECRInfra.ECRName form)
         = Fail err ->
       out = ([Provision.handleErrorInternal err], k) /\
       map Provision.classOfEffect (fst out) = [Some Internal]) /\
    (forall job k',
       ProvisionECR agent k projID awsInt (Provision.CreateECRInfra.ECRName form)
         = Ok (job, k') ->
       snd out = k' /\
       In (Provision.WriteHeader Provision.StatusCreated) (fst out)).
Proof.
  intros out. split.
  - subst out. unfold Provision.HandleProvisionAWSECRInfra.
    destruct (strconv_ParseUint project_id) as [projID|e]; cbn;
      [|intros [Hc|[]]; discriminate Hc].
    destruct (projID =? 0)%N; cbn; [intros [Hc|[]]; discriminate Hc|].
    destruct (json_Decode _) as [form|e]; cbn; [|intros [Hc|[]]; discriminate Hc].
    destruct (validator_Struct form) as [e|]; cbn; [intros [Hc|[]]; discriminate Hc|].
    destruct (ToAWSInfra form) as [converted|e]; cbn; [|intros [Hc|[]]; discriminate Hc].
    destruct (CreateAWSInfra converted) as [infra|e]; cbn;
      [|intros [Hc|[]]; discriminate Hc].
    destruct (ReadAWSIntegration _) as [awsInt|e]; cbn; [|intros [Hc|[]]; discriminate Hc].
    destruct GetAgentInClusterConfig as [agent|e]; cbn; [|intros [Hc|[]]; discriminate Hc].
    destruct (ProvisionECR agent k projID awsInt _) as [[job k']|e]; cbn;
      [|intros [Hc|[]]; discriminate Hc].
    destruct (json_Encode _) as [e|]; cbn;
      intros [Hc|[Hc|[Hc|[]]]]; discriminate Hc.
  - intros projID form converted infra awsInt agent
           Hparse Hnonzero Hdecode Hvalid Hconv Hcreate Hread Hagent.
    apply N.eqb_neq in Hnonzero.
    subst out. unfold Provision.HandleProvisionAWSECRInfra.
    rewrite Hparse, Hnonzero, Hdecode, Hvalid, Hconv, Hcreate, Hread, Hagent.
    split.
    + intros err Hreject. rewrite Hreject. split; reflexivity.
    + intros job k' Haccept. rewrite Haccept.
      destruct (json_Encode _); cbn; split; auto.
Qed.
End LaunchLemmas.

Lemma C7_launch_errors_witness :
  let k := [(1%N, "registry")] in
  ProvisionSample.launch k = ([Provision.handleErrorInternal Substrate.alreadyExists], k) /\
  map Provision.classOfEffect (fst (ProvisionSample.launch k)) = [Some Internal].
Proof.
  exact (proj1 (proj2 (C7_launch_errors unit unit (N * string) Provision.AWSInfra.t
           Substrate.t ProvisionSample.ParseUint ProvisionSample.Decode (fun _ => None)
           ProvisionSample.ToAWSInfra ProvisionSample.CreateAWSInfra
           (fun _ => Ok tt) (Ok tt) Substrate.ProvisionECR (fun infra => infra)
           (fun _ => None) "1" [(1%N, "registry")])
           1%N (Provision.CreateECRInfra.mk 1 "registry" 4)
           (Provision.AWSInfra.mk 0 1 4) (Provision.AWSInfra.mk 9 1 4) tt tt
           eq_refl (fun Hzero => N.neq_succ_0 0 Hzero) eq_refl eq_refl eq_refl eq_refl
           eq_refl eq_refl)
           Substrate.alreadyExists eq_refl).
Defined.

(** * Further properties of the handlers *)

(** ** The store and the pull-request system *)

(** X1: the store finalize leaves behind does not depend on the
    pull-request system: whatever the client of the installation and the
    workflow lookup answer, and whether they fail, two calls on the same
    request and store end with the same store. *)
Theorem X1_store_independent_of_pull_request_system
    {R : Type} `{EnvironmentRepository R}
    (getClient1 getClient2 : Config.t -> Environment.t -> result Client.t)
    (getRun1 getRun2 :
       Client.t -> string -> string -> string -> string -> result WorkflowRun.t)
    config ga project cluster params decoded (r : R) :
  repo (snd (finalize getClient1 getRun1 config ga project cluster params decoded r)) =
  repo (snd (finalize getClient2 getRun2 config ga project cluster params decoded r)).
Proof.
  assert (Hstore : forall getClient getRun,
            let store := repo (snd (finalize getClient getRun config ga project cluster
                                      params decoded r)) in
            (store = r /\
             forall owner name request env depl depl' r',
               ~ Updated ga project cluster params decoded r
                   owner name request env depl depl' r') \/
            (exists owner name request env depl depl',
               Updated ga project cluster params decoded r
                 owner name request env depl depl' store)).
  { intros getClient getRun store. subst store.
    pose proof (finalize_Run getClient getRun config ga project cluster params decoded r)
      as HR.
    cbv zeta in HR.
    destruct (finalize getClient getRun config ga project cluster params decoded r)
      as [resp [store calls]].
    cbn [fst snd repo sent] in *.
    inversion HR; subst; clear HR;
      try (right; unfold RunFound, PullRequestIs, StatusSet in *;
           repeat match goal with Hc : _ /\ _ |- _ => destruct Hc end;
           do 6 eexists; eassumption);
      left; (split; [reflexivity|]); intros o n q e d d' s' Hupd; stages; congruence. }
  destruct (Hstore getClient1 getRun1) as [[H1 N1]|(o1 & n1 & q1 & e1 & d1 & d1' & U1)];
    destruct (Hstore getClient2 getRun2) as [[H2 N2]|(o2 & n2 & q2 & e2 & d2 & d2' & U2)].
  - congruence.
  - exfalso. eapply N1. exact U2.
  - exfalso. eapply N2. exact U1.
  - stages. same_answers. congruence.
Qed.

(** X2: the calls finalize sends are an initial part of the four
    notification steps, in the order status check, pull-request query,
    workflow lookup, comment: no step is sent unless all the earlier ones
    were, none twice, and a success reply has sent all four. *)
Theorem X2_notification_steps_in_order
    {R : Type} `{EnvironmentRepository R}
    (getClient : Config.t -> Environment.t -> result Client.t)
    (getRun : Client.t -> string -> string -> string -> string -> result WorkflowRun.t)
    config ga project cluster params decoded (r : R) :
  let out := finalize getClient getRun config ga project cluster params decoded r in
  map stepOf (sent (snd out)) = firstn (length (sent (snd out))) notificationSteps /\
  (isSuccess (fst out) = true -> map stepOf (sent (snd out)) = notificationSteps) /\
  (commentsOf (sent (snd out)) <> [] -> map stepOf (sent (snd out)) = notificationSteps).
Proof.
  intros out. subst out.
  exits getClient getRun config ga project cluster params decoded r;
    (split; [reflexivity|split]); intros Hs;
    try reflexivity; try discriminate Hs; now contradiction Hs.
Qed.

(** X3: when the store refuses the update, finalize replies with the
    internal error wrapping the store's error, the store is as before
    and nothing is sent to the pull-request system. *)
Theorem X3_update_failure
    {R : Type} `{EnvironmentRepository R}
    (getClient : Config.t -> Environment.t -> result Client.t)
    (getRun : Client.t -> string -> string -> string -> string -> result WorkflowRun.t)
    config ga project cluster params decoded (r : R)
    owner name request env depl err :
  Resolved ga project cluster params decoded r owner name request env depl ->
  UpdateDeployment r (finalized request depl) = Fail err ->
  finalize getClient getRun config ga project cluster params decoded r =
    (HandleAPIError (NewErrInternal err), mkState r []).
Proof.
  intros Hres Hfail.
  exits getClient getRun config ga project cluster params decoded r; congruence.
Qed.

(** X4: when the client of the installation cannot be obtained, finalize
    replies with the internal error and sends nothing, but the update has
    been made: the store holds the Deployment with status Created and the
    subdomain of the request. *)
Theorem X4_client_failure_after_update
    {R : Type} `{KeepsUpdates R}
    (getClient : Config.t -> Environment.t -> result Client.t)
    (getRun : Client.t -> string -> string -> string -> string -> result WorkflowRun.t)
    config ga project cluster params decoded (r : R)
    owner name request env depl depl' r' err :
  Updated ga project cluster params decoded r owner name request env depl depl' r' ->
  getClient config env = Fail err ->
  finalize getClient getRun config ga project cluster params decoded r =
    (HandleAPIError (NewErrInternal err), mkState r' []) /\
  storedStatus r' (Environment.ID env) (FinalizeDeploymentRequest.Namespace request)
    = Some DeploymentStatusCreated /\
  storedSubdomain r' (Environment.ID env) (FinalizeDeploymentRequest.Namespace request)
    = Some (FinalizeDeploymentRequest.Subdomain request).
Proof.
  intros Hupd Hfail.
  destruct (Updated_answer _ _ _ _ _ _ _ _ _ _ _ _ _ Hupd) as [_ Hread].
  unfold storedStatus, storedSubdomain. rewrite Hread.
  split; [|split; reflexivity].
  exits getClient getRun config ga project cluster params decoded r; congruence.
Qed.

Lemma X3_update_failure_witness :
  finalize (Sample.getClient (Sample.client None Sample.openPR None))
    (Sample.getRun (Ok Sample.workflowRun))
    Sample.config Sample.ga Sample.project Sample.cluster Sample.params
    (Some Sample.finalizeRequest) (ReadOnlyRepo.mk Sample.store) =
  (HandleAPIError (NewErrInternal ReadOnlyRepo.readOnly),
   mkState (ReadOnlyRepo.mk Sample.store) []).
Proof.
  refine (X3_update_failure
           (Sample.getClient (Sample.client None Sample.openPR None))
           (Sample.getRun (Ok Sample.workflowRun))
           Sample.config Sample.ga Sample.project Sample.cluster Sample.params
           (Some Sample.finalizeRequest) (ReadOnlyRepo.mk Sample.store)
           "acme" "shop" Sample.finalizeRequest Sample.env Sample.depl
           ReadOnlyRepo.readOnly _ eq_refl).
  repeat split.
Defined.

Lemma X4_client_failure_after_update_witness :
  finalize (fun _ _ => Fail "no installation token")
    (Sample.getRun (Ok Sample.workflowRun))
    Sample.config Sample.ga Sample.project Sample.cluster Sample.params
    (Some Sample.finalizeRequest) Sample.store =
    (HandleAPIError (NewErrInternal "no installation token"),
     mkState Sample.finalizedStore []) /\
  storedStatus Sample.finalizedStore 3 "pr-7" = Some DeploymentStatusCreated /\
  storedSubdomain Sample.finalizedStore 3 "pr-7" = Some "foo.example.com".
Proof.
  exact (X4_client_failure_after_update
           (fun _ _ => Fail "no installation token")
           (Sample.getRun (Ok Sample.workflowRun))
           Sample.config Sample.ga Sample.project Sample.cluster Sample.params
           (Some Sample.finalizeRequest) Sample.store
           "acme" "shop" Sample.finalizeRequest Sample.env Sample.depl
           Sample.finalizedDepl Sample.finalizedStore "no installation token"
           Sample_Updated eq_refl).
Defined.

(** ** What a successful finalize returns *)

(** X5: a success reply carries the view of the Deployment that was
    read, with status Created, with the subdomain of the request (the
    ingress-disabled marker when that is empty) and every other
    attribute as read; by then the store holds the row with status
    Created. *)
Theorem X5_success_view
    {R : Type} `{KeepsUpdates R}
    (getClient : Config.t -> Environment.t -> result Client.t)
    (getRun : Client.t -> string -> string -> string -> string -> result WorkflowRun.t)
    config ga project cluster params decoded (r : R) v :
  fst (finalize getClient getRun config ga project cluster params decoded r)
    = WriteResult v ->
  exists owner name request env depl,
    Resolved ga project cluster params decoded r owner name request env depl /\
    DeploymentView.Status v = DeploymentStatusCreated /\
    DeploymentView.Subdomain v =
      (if (FinalizeDeploymentRequest.Subdomain request =? "")%string
       then ingressDisabled
       else FinalizeDeploymentRequest.Subdomain request) /\
    (DeploymentView.ID v, DeploymentView.EnvironmentID v, DeploymentView.Namespace v,
     DeploymentView.PullRequestID v, DeploymentView.GHDeploymentID v,
     DeploymentView.RepoOwner v, DeploymentView.RepoName v,
     DeploymentView.CommitSHA v, DeploymentView.PRBranchFrom v)
      = Deployment.frame depl /\
    storedStatus
      (repo (snd (finalize getClient getRun config ga project cluster params decoded r)))
      (Environment.ID env) (FinalizeDeploymentRequest.Namespace request)
      = Some DeploymentStatusCreated.
Proof.
  intros Hview.
  exits getClient getRun config ga project cluster params decoded r.
  match goal with
  | Hv : WriteResult _ = WriteResult _ |- _ => injection Hv as <-
  end.
  match goal with
  | Hupd : UpdateDeployment r (finalized ?q ?d) = Ok (?d', ?s'),
    Hread : ReadDeployment r (Environment.ID ?e) _ = Ok ?d |- _ =>
      destruct (read_after_update r s' _ _ d (finalized q d) d'
                  Hread (finalized_frame q d) Hupd) as [-> Hback]
  end.
  do 5 eexists. split; [repeat split; eassumption|].
  unfold storedStatus. rewrite Hback.
  unfold rendered. cbn [finalized Deployment.Subdomain Deployment.set_Status
                        Deployment.set_Subdomain].
  destruct (FinalizeDeploymentRequest.Subdomain _ =? "")%string; repeat split.
Qed.

Lemma X5_success_view_witness :
  exists owner name request env depl,
    Resolved Sample.ga Sample.project Sample.cluster Sample.params
      (Some Sample.finalizeRequest) Sample.store owner name request env depl /\
    DeploymentView.Status (ToDeploymentType Sample.finalizedDepl)
      = DeploymentStatusCreated /\
    DeploymentView.Subdomain (ToDeploymentType Sample.finalizedDepl) =
      (if (FinalizeDeploymentRequest.Subdomain request =? "")%string
       then ingressDisabled
       else FinalizeDeploymentRequest.Subdomain request) /\
    (5%N, 3%N, "pr-7", 7%N, 99%Z, "acme", "shop", "abc123", "feature")
      = Deployment.frame depl /\
    storedStatus
      (repo (snd (Sample.serve (Sample.client None Sample.openPR None)
                    (Ok Sample.workflowRun))))
      (Environment.ID env) (FinalizeDeploymentRequest.Namespace request)
      = Some DeploymentStatusCreated.
Proof.
  exact (X5_success_view
           (Sample.getClient (Sample.client None Sample.openPR None))
           (Sample.getRun (Ok Sample.workflowRun))
           Sample.config Sample.ga Sample.project Sample.cluster Sample.params
           (Some Sample.finalizeRequest) Sample.store
           (ToDeploymentType Sample.finalizedDepl) eq_refl).
Defined.

Lemma rendered_subdomain_nonempty depl : Deployment.Subdomain (rendered depl) <> "".
Proof.
  unfold rendered.
  destruct (Deployment.Subdomain depl =? "")%string eqn:E; cbn.
  - discriminate.
  - now apply String.eqb_neq in E.
Qed.

(** X6: the live URL finalize shows is never blank.  Once the workflow
    run is found, the one comment sent is, to the letter, the heading
    and the commit row, then the row [| Live URL | url |], then the
    build-log and dashboard rows and the resource lines, where [url] is
    the subdomain of the Deployment the store returned or, when that is
    empty, the ingress-disabled marker; [url] is not empty, and a
    success reply shows the same [url] as its subdomain. *)
Theorem X6_live_url_never_blank
    {R : Type} `{EnvironmentRepository R}
    (getClient : Config.t -> Environment.t -> result Client.t)
    (getRun : Client.t -> string -> string -> string -> string -> result WorkflowRun.t)
    config ga project cluster params decoded (r : R)
    owner name request env depl depl' r' client workflowRun :
  RunFound getClient getRun config ga project cluster params decoded r
    owner name request env depl depl' r' client workflowRun ->
  let out := finalize getClient getRun config ga project cluster params decoded r in
  let url := if (Deployment.Subdomain depl' =? "")%string
             then ingressDisabled else Deployment.Subdomain depl' in
  let before :=
    "## Porter Preview Environments" ++ nl ++
    check_mark ++ " All changes deployed successfully" ++ nl ++
    "||Deployment Information|" ++ nl ++
    "|-|-|" ++ nl ++
    "| Latest SHA | [`" ++ Deployment.CommitSHA depl' ++ "`](https://github.com/" ++
    Deployment.RepoOwner depl' ++ "/" ++ Deployment.RepoName depl' ++ "/commit/" ++
    Deployment.CommitSHA depl' ++ ") |" ++ nl in
  let after :=
    nl ++ "| Build Logs | " ++ WorkflowRun.GetHTMLURL workflowRun ++ " |" ++ nl ++
    "| Porter Deployments URL | " ++ Config.ServerURL config ++
    "/preview-environments/details/" ++ Deployment.Namespace depl' ++
    "?environment_id=" ++ fmt.decimal (Deployment.EnvironmentID depl') ++ " |" ++
    match FinalizeDeploymentRequest.SuccessfulResources request with
    | [] => ""
    | _ => resourcesHeading ++
           joinLines (map snd (resourceLinks config project cluster (rendered depl')
                                 (FinalizeDeploymentRequest.SuccessfulResources request)))
    end in
  url <> "" /\
  commentsOf (sent (snd out)) = [before ++ "| Live URL | " ++ url ++ " |" ++ after] /\
  (forall v, fst out = WriteResult v -> DeploymentView.Subdomain v = url).
Proof.
  intros Hrun out url before after.
  assert (Hurl : Deployment.Subdomain (rendered depl') = url).
  { subst url. unfold rendered.
    now destruct (Deployment.Subdomain depl' =? "")%string. }
  assert (Hframe :
            Deployment.CommitSHA (rendered depl') = Deployment.CommitSHA depl' /\
            Deployment.RepoOwner (rendered depl') = Deployment.RepoOwner depl' /\
            Deployment.RepoName (rendered depl') = Deployment.RepoName depl' /\
            Deployment.Namespace (rendered depl') = Deployment.Namespace depl' /\
            Deployment.EnvironmentID (rendered depl') = Deployment.EnvironmentID depl').
  { unfold rendered.
    destruct (Deployment.Subdomain depl' =? "")%string; repeat split. }
  destruct Hframe as (Hsha & Howner & Hname & Hnamespace & Henv).
  split; [rewrite <- Hurl; apply rendered_subdomain_nonempty|].
  assert (Hbody :
            commentBody config project cluster (rendered depl') workflowRun
              (FinalizeDeploymentRequest.SuccessfulResources request)
            = before ++ "| Live URL | " ++ url ++ " |" ++ after).
  { rewrite commentBody_lines, commentTable_text.
    rewrite Hurl, Hsha, Howner, Hname, Hnamespace, Henv.
    subst before after.
    repeat (rewrite ?append_assoc; cbn [String.append]). reflexivity. }
  rewrite <- Hbody, <- Hurl. clear Hbody Hurl Hsha Howner Hname Hnamespace Henv.
  subst out url before after.
  exits getClient getRun config ga project cluster params decoded r;
    (split; [try congruence; try reflexivity
            |intros v Hv; try discriminate Hv; try congruence]).
  all: try (injection Hv as <-; reflexivity).
Qed.

Lemma X6_live_url_never_blank_witness :
  let out := Sample.serve (Sample.client None Sample.openPR None) (Ok Sample.workflowRun) in
  let url := if (Deployment.Subdomain Sample.finalizedDepl =? "")%string
             then ingressDisabled else Deployment.Subdomain Sample.finalizedDepl in
  let before :=
    "## Porter Preview Environments" ++ nl ++
    check_mark ++ " All changes deployed successfully" ++ nl ++
    "||Deployment Information|" ++ nl ++
    "|-|-|" ++ nl ++
    "| Latest SHA | [`" ++ Deployment.CommitSHA Sample.finalizedDepl ++
    "`](https://github.com/" ++
    Deployment.RepoOwner Sample.finalizedDepl ++ "/" ++
    Deployment.RepoName Sample.finalizedDepl ++ "/commit/" ++
    Deployment.CommitSHA Sample.finalizedDepl ++ ") |" ++ nl in
  let after :=
    nl ++ "| Build Logs | " ++ WorkflowRun.GetHTMLURL Sample.workflowRun ++ " |" ++ nl ++
    "| Porter Deployments URL | " ++ Config.ServerURL Sample.config ++
    "/preview-environments/details/" ++ Deployment.Namespace Sample.finalizedDepl ++
    "?environment_id=" ++ fmt.decimal (Deployment.EnvironmentID Sample.finalizedDepl) ++
    " |" ++
    match FinalizeDeploymentRequest.SuccessfulResources Sample.finalizeRequest with
    | [] => ""
    | _ => resourcesHeading ++
           joinLines (map snd (resourceLinks Sample.config Sample.project Sample.cluster
                                 (rendered Sample.finalizedDepl)
                                 (FinalizeDeploymentRequest.SuccessfulResources
                                    Sample.finalizeRequest)))
    end in
  url <> "" /\
  commentsOf (sent (snd out)) = [before ++ "| Live URL | " ++ url ++ " |" ++ after] /\
  (forall v, fst out = WriteResult v -> DeploymentView.Subdomain v = url).
Proof.
  exact (X6_live_url_never_blank
           (Sample.getClient (Sample.client None Sample.openPR None))
           (Sample.getRun (Ok Sample.workflowRun))
           Sample.config Sample.ga Sample.project Sample.cluster Sample.params
           (Some Sample.finalizeRequest) Sample.store
           "acme" "shop" Sample.finalizeRequest Sample.env Sample.depl
           Sample.finalizedDepl Sample.finalizedStore
           (Sample.client None Sample.openPR None) Sample.workflowRun
           (Sample_RunFound None)).
Defined.

(** X7: the deployment status finalize sends is at most one; it goes to
    the repository of the Environment, for the GHDeploymentID of the
    Deployment read, with state [success] and, as environment URL, the
    subdomain of the request as given: empty when ingress is disabled,
    never the marker. *)
Theorem X7_deployment_status_payload
    {R : Type} `{KeepsUpdates R}
    (getClient : Config.t -> Environment.t -> result Client.t)
    (getRun : Client.t -> string -> string -> string -> string -> result WorkflowRun.t)
    config ga project cluster params decoded (r : R) :
  let out := finalize getClient getRun config ga project cluster params decoded r in
  deploymentStatuses (sent (snd out)) = [] \/
  exists owner name request env depl,
    Resolved ga project cluster params decoded r owner name request env depl /\
    deploymentStatuses (sent (snd out)) =
      [(Environment.GitRepoOwner env, Environment.GitRepoName env,
        Deployment.GHDeploymentID depl, "success",
        FinalizeDeploymentRequest.Subdomain request)].
Proof.
  intros out. subst out.
  exits getClient getRun config ga project cluster params decoded r;
    try (left; reflexivity);
    right;
    match goal with
    | Hupd : UpdateDeployment r (finalized ?q ?d) = Ok (?d', ?s'),
      Hread : ReadDeployment r (Environment.ID ?e) _ = Ok ?d |- _ =>
        destruct (read_after_update r s' _ _ d (finalized q d) d'
                    Hread (finalized_frame q d) Hupd) as [-> _]
    end;
    do 5 eexists; (split; [repeat split; eassumption|reflexivity]).
Qed.

Lemma X7_deployment_status_payload_witness :
  let request := FinalizeDeploymentRequest.mk "pr-7" "" [] in
  let out := finalize (Sample.getClient (Sample.client None Sample.openPR None))
               (Sample.getRun (Ok Sample.workflowRun))
               Sample.config Sample.ga Sample.project Sample.cluster Sample.params
               (Some request) Sample.store in
  (deploymentStatuses (sent (snd out)) = [] \/
   exists owner name request' env depl,
     Resolved Sample.ga Sample.project Sample.cluster Sample.params
       (Some request) Sample.store owner name request' env depl /\
     deploymentStatuses (sent (snd out)) =
       [(Environment.GitRepoOwner env, Environment.GitRepoName env,
         Deployment.GHDeploymentID depl, "success",
         FinalizeDeploymentRequest.Subdomain request')]) /\
  deploymentStatuses (sent (snd out)) = [("acme", "shop", 99%Z, "success", "")].
Proof.
  split; [|reflexivity].
  exact (X7_deployment_status_payload
           (Sample.getClient (Sample.client None Sample.openPR None))
           (Sample.getRun (Ok Sample.workflowRun))
           Sample.config Sample.ga Sample.project Sample.cluster Sample.params
           (Some (FinalizeDeploymentRequest.mk "pr-7" "" [])) Sample.store).
Defined.

(** ** The pull-request check *)

(** X8: [isGithubPRClosed] leaves the store alone and sends exactly one
    pull-request query; it passes a failure of the query on, and
    otherwise reports closed exactly when the state of the pull request
    is the string [closed]: a pull request without state, or in any
    other state, reads as open. *)
Theorem X8_pull_request_closed_check
    {R : Type} (client : Client.t) (owner name : string) (prNumber : Z) (st : State R) :
  let out := isGithubPRClosed client owner name prNumber st in
  snd out = mkState (repo st) (sent st ++ [GetPullRequest owner name prNumber]) /\
  (forall err, fst out = inr (Fail err) <->
               Client.PullRequests_Get client owner name prNumber = Fail err) /\
  (fst out = inr (Ok true) <->
   Client.PullRequests_Get client owner name prNumber
     = Ok (PullRequest.mk (Some "closed"))) /\
  (fst out = inr (Ok false) <->
   exists ghPR, Client.PullRequests_Get client owner name prNumber = Ok ghPR /\
                PullRequest.State ghPR <> Some "closed").
Proof.
  unfold isGithubPRClosed, bind, send, ret. cbn.
  destruct (Client.PullRequests_Get client owner name prNumber) as [[state]|err];
    cbn; (split; [reflexivity|]).
  - unfold PullRequest.GetState. cbn.
    destruct state as [s|]; cbn.
    + destruct (s =? "closed")%string eqn:E.
      * apply String.eqb_eq in E. subst s.
        repeat split; intros Hx; try discriminate Hx; try reflexivity.
        destruct Hx as [pr [Hpr Hne]]. injection Hpr as <-. now contradiction Hne.
      * apply String.eqb_neq in E.
        repeat split; intros Hx; try discriminate Hx; try reflexivity.
        -- injection Hx as Hs. now contradiction E.
        -- eexists; split; [reflexivity|]. cbn. congruence.
    + repeat split; intros Hx; try discriminate Hx; try reflexivity.
      eexists; split; [reflexivity|]. cbn. discriminate.
  - repeat split; intros Hx; try discriminate Hx; try congruence.
    destruct Hx as [pr [Hpr _]]. discriminate Hpr.
Qed.

(** ** The resource list of the comment *)





(** ** The provisioning handlers *)

Section ProvisionTestLemmas.
Variables Agent Job Substrate : Type.
Variable strconv_ParseUint : string -> result N.
Variable GetAgentInClusterConfig : result Agent.
Variable ProvisionTest : Agent -> Substrate -> N -> result (Job * Substrate).

(** X10: [HandleProvisionTest] writes exactly one thing.  It answers 200
    exactly when the project id parses to a non-zero number, the agent is
    available and the substrate accepts the test job; in every other case
    the one thing written is an error report and the substrate is as
    before: a decode error when the project id does not parse, a
    data-read error when no agent is available, an internal error when
    the substrate refuses the job. *)
Theorem X10_provision_test_outcomes (project_id : string) (k : Substrate) :
  let out := HandleProvisionTest Agent Job Substrate strconv_ParseUint
               GetAgentInClusterConfig ProvisionTest project_id k in
  (exists e, fst out = [e]) /\
  (fst out = [Provision.WriteHeader StatusOK] <->
   exists projID agent job,
     strconv_ParseUint project_id = Ok projID /\ projID <> 0%N /\
     GetAgentInClusterConfig = Ok agent /\
     ProvisionTest agent k projID = Ok (job, snd out)) /\
  (fst out <> [Provision.WriteHeader StatusOK] ->
   snd out = k /\ exists e, fst out = [e] /\ isErrorReport e = true) /\
  (forall err, strconv_ParseUint project_id = Fail err ->
     fst out = [Provision.handleErrorFormDecoding (Some err) Provision.ErrProjectDecode]) /\
  (forall projID err,
     strconv_ParseUint project_id = Ok projID -> projID <> 0%N ->
     GetAgentInClusterConfig = Fail err ->
     fst out = [Provision.handleErrorDataRead err]) /\
  (forall projID agent err,
     strconv_ParseUint project_id = Ok projID -> projID <> 0%N ->
     GetAgentInClusterConfig = Ok agent ->
     ProvisionTest agent k projID = Fail err ->
     fst out = [Provision.handleErrorInternal err]).
Proof.
  intros out. subst out. unfold HandleProvisionTest.
  destruct (strconv_ParseUint project_id) as [projID|e] eqn:Hparse; cbn.
  2:{ split; [eexists; reflexivity|].
      split; [split; [discriminate|]; intros (p & a & j & Hp & _); discriminate Hp|].
      split; [intros _; split; [reflexivity|eexists; split; reflexivity]|].
      repeat split; intros; congruence. }
  destruct (projID =? 0)%N eqn:Hzero; cbn.
  { apply N.eqb_eq in Hzero. split; [eexists; reflexivity|].
    split; [split; [discriminate|]; intros (p & a & j & Hp & Hnz & _); congruence|].
    split; [intros _; split; [reflexivity|eexists; split; reflexivity]|].
    repeat split; intros; congruence. }
  apply N.eqb_neq in Hzero.
  destruct GetAgentInClusterConfig as [agent|e] eqn:Hagent; cbn.
  2:{ split; [eexists; reflexivity|].
      split; [split; [discriminate|];
              intros (p & a & j & _ & _ & Ha & _); discriminate Ha|].
      split; [intros _; split; [reflexivity|eexists; split; reflexivity]|].
      repeat split; intros; congruence. }
  destruct (ProvisionTest agent k projID) as [[job k']|e] eqn:Htest; cbn.
  - split; [eexists; reflexivity|].
    split; [split; [|reflexivity]; intros _; exists projID, agent, job;
            repeat split; assumption|].
    split; [intros Hne; now contradiction Hne|].
    repeat split; intros; congruence.
  - split; [eexists; reflexivity|].
    split; [split; [discriminate|];
            intros (p & a & j & Hp & _ & Ha & Ht);
            injection Hp as <-; injection Ha as <-; congruence|].
    split; [intros _; split; [reflexivity|eexists; split; reflexivity]|].
    repeat split; intros; congruence.
Qed.
End ProvisionTestLemmas.

Section LaunchEdgeLemmas.
Variables AWSIntegration Agent Job InfraExternal Substrate : Type.
Variable strconv_ParseUint : string -> result N.
Variable json_Decode : Provision.CreateECRInfra.t -> result Provision.CreateECRInfra.t.
Variable validator_Struct : Provision.CreateECRInfra.t -> option error.
Variable ToAWSInfra : Provision.CreateECRInfra.t -> result Provision.AWSInfra.t.
Variable CreateAWSInfra : Provision.AWSInfra.t -> result Provision.AWSInfra.t.
Variable ReadAWSIntegration : N -> result AWSIntegration.
Variable GetAgentInClusterConfig : result Agent.
Variable ProvisionECR :
  Agent -> Substrate -> N -> AWSIntegration -> string -> result (Job * Substrate).
Variable ProvisionTest : Agent -> Substrate -> N -> result (Job * Substrate).
Variable Externalize : Provision.AWSInfra.t -> InfraExternal.
Variable json_Encode : InfraExternal -> option error.

(** X11: a project id that parses to zero is refused by both
    provisioning handlers before anything else is looked at: the only
    thing written is the decode error, carrying a nil error, and the
    substrate is as before. *)
Theorem X11_project_zero_is_refused (project_id : string) (k : Substrate) :
  strconv_ParseUint project_id = Ok 0%N ->
  Provision.HandleProvisionAWSECRInfra AWSIntegration Agent Job InfraExternal
    Substrate strconv_ParseUint json_Decode validator_Struct ToAWSInfra
    CreateAWSInfra ReadAWSIntegration GetAgentInClusterConfig ProvisionECR
    Externalize json_Encode project_id k
    = ([Provision.handleErrorFormDecoding None Provision.ErrProjectDecode], k) /\
  HandleProvisionTest Agent Job Substrate strconv_ParseUint
    GetAgentInClusterConfig ProvisionTest project_id k
    = ([Provision.handleErrorFormDecoding None Provision.ErrProjectDecode], k).
Proof.
  intros Hzero.
  unfold Provision.HandleProvisionAWSECRInfra, HandleProvisionTest.
  rewrite Hzero. split; reflexivity.
Qed.

(** X12: the registry launch either writes one error report and nothing
    else, leaving the substrate as it was, or changes the substrate by a
    job the substrate accepted, and then the reply starts with the log
    line and status 201; what follows is the encoded infra or, when
    encoding fails, a decode error written after the 201, the job
    staying submitted. *)
Theorem X12_launch_touches_substrate_only_on_201 (project_id : string) (k : Substrate) :
  let out := Provision.HandleProvisionAWSECRInfra AWSIntegration Agent Job InfraExternal
               Substrate strconv_ParseUint json_Decode validator_Struct ToAWSInfra
               CreateAWSInfra ReadAWSIntegration GetAgentInClusterConfig ProvisionECR
               Externalize json_Encode project_id k in
  (snd out = k /\ exists e, fst out = [e] /\ isErrorReport e = true) \/
  (exists projID form infra awsInt agent job,
     strconv_ParseUint project_id = Ok projID /\
     json_Decode (Provision.CreateECRInfra.mk projID "" 0) = Ok form /\
     ReadAWSIntegration (Provision.AWSInfra.AWSIntegrationID infra) = Ok awsInt /\
     ProvisionECR agent k projID awsInt (Provision.CreateECRInfra.ECRName form)
       = Ok (job, snd out) /\
     fst out =
       [Provision.LoggerInfo
          ("New aws ecr infra created: " ++ fmt.decimal (Provision.AWSInfra.ID infra));
        Provision.WriteHeader Provision.StatusCreated;
        match json_Encode (Externalize infra) with
        | None => Provision.Encode (Externalize infra)
        | Some e => Provision.handleErrorFormDecoding (Some e) Provision.ErrProjectDecode
        end]).
Proof.
  intros out. subst out. unfold Provision.HandleProvisionAWSECRInfra.
  destruct (strconv_ParseUint project_id) as [projID|e] eqn:Hparse; cbn;
    [|left; split; [reflexivity|eexists; split; reflexivity]].
  destruct (projID =? 0)%N; cbn;
    [left; split; [reflexivity|eexists; split; reflexivity]|].
  destruct (json_Decode _) as [form|e] eqn:Hdecode; cbn;
    [|left; split; [reflexivity|eexists; split; reflexivity]].
  destruct (validator_Struct form) as [e|]; cbn;
    [left; split; [reflexivity|eexists; split; reflexivity]|].
  destruct (ToAWSInfra form) as [converted|e]; cbn;
    [|left; split; [reflexivity|eexists; split; reflexivity]].
  destruct (CreateAWSInfra converted) as [infra|e]; cbn;
    [|left; split; [reflexivity|eexists; split; reflexivity]].
  destruct (ReadAWSIntegration _) as [awsInt|e] eqn:Hread; cbn;
    [|left; split; [reflexivity|eexists; split; reflexivity]].
  destruct GetAgentInClusterConfig as [agent|e]; cbn;
    [|left; split; [reflexivity|eexists; split; reflexivity]].
  destruct (ProvisionECR agent k projID awsInt _) as [[job k']|e] eqn:Hjob; cbn;
    [|left; split; [reflexivity|eexists; split; reflexivity]].
  right. exists projID, form, infra, awsInt, agent, job.
  destruct (json_Encode (Externalize infra)); cbn;
    rewrite append_nil_r; repeat split; assumption.
Qed.
End LaunchEdgeLemmas.

Lemma X11_project_zero_is_refused_witness :
  Provision.HandleProvisionAWSECRInfra unit unit (N * string) Provision.AWSInfra.t
    Substrate.t (fun _ => Ok 0%N) ProvisionSample.Decode (fun _ => None)
    ProvisionSample.ToAWSInfra ProvisionSample.CreateAWSInfra
    (fun _ => Ok tt) (Ok tt) Substrate.ProvisionECR (fun infra => infra)
    (fun _ => None) "0" []
    = ([Provision.handleErrorFormDecoding None Provision.ErrProjectDecode], []) /\
  HandleProvisionTest unit (N * string) Substrate.t (fun _ => Ok 0%N) (Ok tt)
    (fun _ k p => Ok ((p, "test"), (p, "test") :: k)) "0" []
    = ([Provision.handleErrorFormDecoding None Provision.ErrProjectDecode], []).
Proof.
  exact (X11_project_zero_is_refused unit unit (N * string) Provision.AWSInfra.t
           Substrate.t (fun _ => Ok 0%N) ProvisionSample.Decode (fun _ => None)
           ProvisionSample.ToAWSInfra ProvisionSample.CreateAWSInfra
           (fun _ => Ok tt) (Ok tt) Substrate.ProvisionECR
           (fun _ k p => Ok ((p, "test"), (p, "test") :: k)) (fun infra => infra)
           (fun _ => None) "0" [] eq_refl).
Defined.

(** ** The stream of the provisioning logs *)

(** X13: a failed websocket upgrade does not stop the log handler: the
    upgrade error is reported first and the stream is attached all the
    same, with no connection; an error of the stream is reported after. *)
Theorem X13_failed_upgrade_still_attaches (Conn : Type)
    (URLParam : string -> string) (upgrade : result Conn)
    (stream : string -> option Conn -> option error) err :
  upgrade = Fail err ->
  let name := URLParam "kind" ++ "-" ++ URLParam "project_id" ++ "-" ++
              URLParam "infra_id" in
  Provision.HandleGetProvisioningLogs Conn URLParam upgrade stream =
    Provision.handleErrorUpgradeWebsocket err ::
    Provision.ResourceStream name None ::
    match stream name None with
    | Some e => [Provision.handleErrorWebsocketWrite e]
    | None => []
    end.
Proof.
  intros -> name. subst name. unfold Provision.HandleGetProvisioningLogs. cbn.
  now rewrite append_nil_r.
Qed.

Lemma X13_failed_upgrade_still_attaches_witness :
  Provision.HandleGetProvisioningLogs unit ProvisionSample.URLParam
    (Fail "bad handshake") (fun _ conn =>
       match conn with None => Some "nil connection" | Some _ => None end) =
  [Provision.handleErrorUpgradeWebsocket "bad handshake";
   Provision.ResourceStream "ecr-1-9" None;
   Provision.handleErrorWebsocketWrite "nil connection"].
Proof.
  exact (X13_failed_upgrade_still_attaches unit ProvisionSample.URLParam
           (Fail "bad handshake")
           (fun _ conn =>
              match conn with None => Some "nil connection" | Some _ => None end)
           "bad handshake" eq_refl).
Defined.

Lemma hyphen_split (a a' b b' : string) :
  hyphenFree a = true -> hyphenFree a' = true ->
  a ++ "-" ++ b = a' ++ "-" ++ b' -> a = a' /\ b = b'.
Proof.
  revert a'. induction a as [|c a IH]; intros [|c' a'] Ha Ha' Heq; cbn in *.
  - injection Heq as Heq. now split.
  - injection Heq as Hc _. subst c'. discriminate Ha'.
  - injection Heq as Hc _. subst c. discriminate Ha.
  - injection Heq as Hc Heq. subst c'.
    apply andb_prop in Ha, Ha'.
    destruct (IH a' (proj2 Ha) (proj2 Ha') Heq) as [-> ->]. now split.
Qed.

(** X14: for kinds and project ids without a hyphen, the stream name
    determines the run: two requests attached to the same stream have
    the same kind, project and infra.  Without that condition it does
    not: the parameters (test-1, 2, 3) and (test, 1-2, 3) share the
    stream [test-1-2-3]. *)
Theorem X14_stream_name_determines_run (Conn : Type)
    (URLParam1 URLParam2 : string -> string)
    (upgrade1 upgrade2 : result Conn)
    (stream1 stream2 : string -> option Conn -> option error) :
  (hyphenFree (URLParam1 "kind") = true -> hyphenFree (URLParam1 "project_id") = true ->
   hyphenFree (URLParam2 "kind") = true -> hyphenFree (URLParam2 "project_id") = true ->
   Provision.attachedStreams
     (Provision.HandleGetProvisioningLogs Conn URLParam1 upgrade1 stream1) =
   Provision.attachedStreams
     (Provision.HandleGetProvisioningLogs Conn URLParam2 upgrade2 stream2) ->
   URLParam1 "kind" = URLParam2 "kind" /\
   URLParam1 "project_id" = URLParam2 "project_id" /\
   URLParam1 "infra_id" = URLParam2 "infra_id") /\
  (CollidingParams.first "kind" <> CollidingParams.second "kind" /\
   Provision.attachedStreams
     (Provision.HandleGetProvisioningLogs Conn CollidingParams.first upgrade1 stream1) =
   Provision.attachedStreams
     (Provision.HandleGetProvisioningLogs Conn CollidingParams.second upgrade2 stream2)).
Proof.
  split.
  - intros Hk1 Hp1 Hk2 Hp2. rewrite !attachedStreams_name. intros Heq.
    injection Heq as Heq.
    apply hyphen_split in Heq; try assumption. destruct Heq as [Hkind Heq].
    apply hyphen_split in Heq; try assumption. destruct Heq as [Hproject Hinfra].
    now repeat split.
  - split; [discriminate|]. now rewrite !attachedStreams_name.
Qed.

Lemma X14_stream_name_determines_run_witness :
  ProvisionSample.URLParam "kind" = ProvisionSample.URLParam' "kind" /\
  ProvisionSample.URLParam "project_id" = ProvisionSample.URLParam' "project_id" /\
  ProvisionSample.URLParam "infra_id" = ProvisionSample.URLParam' "infra_id".
Proof.
  exact (proj1 (X14_stream_name_determines_run unit
           ProvisionSample.URLParam ProvisionSample.URLParam'
           (Ok tt) (Fail "bad handshake")
           (fun _ _ => None) (fun _ _ => Some "write failed"))
           eq_refl eq_refl eq_refl eq_refl eq_refl).
Defined.

(** ** The routes of the API *)

(** Case analysis on the routes of the table. *)
Ltac each_route Hin :=
  unfold Router.apiRoutes in Hin; cbn [In] in Hin;
  repeat (destruct Hin as [<-|Hin]; [|]); [..|contradiction Hin].

(** X15: every route under a project, that is with [{project_id}] in its
    pattern, is mounted behind the project-access check as the outermost
    middleware, reading the project from the URL; the routes outside
    projects make no project-access check. *)
Theorem X15_project_routes_are_guarded (route : Router.Route) :
  In route Router.apiRoutes ->
  (JS.includes "{project_id}" (Router.pattern route) = true ->
   exists next access,
     Router.handler route = Router.DoesUserHaveProjectAccess next Router.URLParam access) /\
  (JS.includes "{project_id}" (Router.pattern route) = false ->
   Router.projectAccess (Router.handler route) = None).
Proof.
  intros Hin. each_route Hin; cbn;
    (split; intros Hp; [try discriminate Hp; eauto|try discriminate Hp; reflexivity]).
Qed.

Lemma X15_project_routes_are_guarded_witness :
  (JS.includes "{project_id}" "/projects/{project_id}/releases/{name}/rollback" = true ->
   exists next access,
     Router.DoesUserHaveProjectAccess
       (Router.DoesUserHaveServiceAccountAccess
          (Router.NewHandler Router.HandleRollbackRelease)
          Router.URLParam Router.QueryParam)
       Router.URLParam Router.ReadAccess
     = Router.DoesUserHaveProjectAccess next Router.URLParam access) /\
  (JS.includes "{project_id}" "/projects/{project_id}/releases/{name}/rollback" = false ->
   Router.projectAccess
     (Router.DoesUserHaveProjectAccess
        (Router.DoesUserHaveServiceAccountAccess
           (Router.NewHandler Router.HandleRollbackRelease)
           Router.URLParam Router.QueryParam)
        Router.URLParam Router.ReadAccess) = None).
Proof.
  refine (X15_project_routes_are_guarded
            (Router.mkRoute "POST" "/projects/{project_id}/releases/{name}/rollback"
               (Router.DoesUserHaveProjectAccess
                  (Router.DoesUserHaveServiceAccountAccess
                     (Router.NewHandler Router.HandleRollbackRelease)
                     Router.URLParam Router.QueryParam)
                  Router.URLParam Router.ReadAccess)) _).
  unfold Router.apiRoutes. cbn [In]. do 16 right. left. reflexivity.
Defined.

(** X16: the routes mounted without any middleware of [mw.Auth] are
    exactly two: creating a user and logging in. *)
Theorem X16_unauthenticated_routes (route : Router.Route) :
  In route Router.apiRoutes ->
  (Router.authenticated (Router.handler route) = false <->
   (Router.method route, Router.pattern route) = ("POST", "/users") \/
   (Router.method route, Router.pattern route) = ("POST", "/login")).
Proof.
  intros Hin. each_route Hin; cbn;
    (split; [intros Hp; try discriminate Hp; auto
            |intros [Hp|Hp]; try discriminate Hp; reflexivity]).
Qed.

Lemma X16_unauthenticated_routes_witness :
  Router.authenticated (Router.NewHandler Router.HandleLoginUser) = false <->
  ("POST", "/login") = ("POST", "/users") \/ ("POST", "/login") = ("POST", "/login").
Proof.
  refine (X16_unauthenticated_routes
            (Router.mkRoute "POST" "/login" (Router.NewHandler Router.HandleLoginUser)) _).
  unfold Router.apiRoutes. cbn [In]. do 3 right. left. reflexivity.
Defined.

(** X17: the release and cluster routes all check the service account
    inside the project-access check and ask for read access only, the
    POST routes that upgrade and roll back a release included; write
    access is asked on the candidates routes, the GET that lists them
    included, and nowhere else. *)
Theorem X17_access_asked_by_routes (route : Router.Route) :
  In route Router.apiRoutes ->
  (JS.includes "/releases" (Router.pattern route)
     || JS.includes "/k8s" (Router.pattern route) = true <->
   Router.checksServiceAccount (Router.handler route) = true) /\
  (Router.checksServiceAccount (Router.handler route) = true ->
   Router.projectAccess (Router.handler route) = Some Router.ReadAccess) /\
  (Router.projectAccess (Router.handler route) = Some Router.WriteAccess <->
   JS.includes "/candidates" (Router.pattern route) = true).
Proof.
  intros Hin. each_route Hin; cbn;
    (split; [split; intros Hp; try discriminate Hp; reflexivity|]);
    (split; [intros Hp; try discriminate Hp; reflexivity|]);
    (split; intros Hp; try discriminate Hp; reflexivity).
Qed.

Lemma X17_access_asked_by_routes_witness :
  Router.projectAccess
    (Router.DoesUserHaveProjectAccess
       (Router.DoesUserHaveServiceAccountAccess
          (Router.NewHandler Router.HandleUpgradeRelease)
          Router.URLParam Router.QueryParam)
       Router.URLParam Router.ReadAccess) = Some Router.ReadAccess.
Proof.
  refine (proj1 (proj2 (X17_access_asked_by_routes
            (Router.mkRoute "POST" "/projects/{project_id}/releases/{name}/upgrade"
               (Router.DoesUserHaveProjectAccess
                  (Router.DoesUserHaveServiceAccountAccess
                     (Router.NewHandler Router.HandleUpgradeRelease)
                     Router.URLParam Router.QueryParam)
                  Router.URLParam Router.ReadAccess)) _)) eq_refl).
  unfold Router.apiRoutes. cbn [In]. do 14 right. left. reflexivity.
Defined.

(** X18: no two routes share method and pattern, and every handler of
    the application is mounted on one route only. *)
Theorem X18_routes_are_distinct :
  NoDup (map (fun route => (Router.method route, Router.pattern route)) Router.apiRoutes) /\
  NoDup (map (fun route => Router.appHandler (Router.handler route)) Router.apiRoutes).
Proof.
  split; cbn;
    repeat (apply NoDup_cons;
            [cbn [In]; intros Hin;
             repeat (destruct Hin as [Hin|Hin]; [discriminate Hin|]); exact Hin|]);
    apply NoDup_nil.
Qed.

(** ** Splitting a string at a character *)

Lemma split_not_nil sep s : JS.split sep s <> [].
Proof.
  destruct s as [|c s]; cbn; [discriminate|].
  destruct (c =? sep)%char; [discriminate|].
  destruct (JS.split sep s); discriminate.
Qed.

(** Joining the parts again gives the string back. *)
Lemma join_split sep s : JS.join sep (JS.split sep s) = s.
Proof.
  induction s as [|c s IH]; [reflexivity|].
  cbn [JS.split]. destruct (c =? sep)%char eqn:E.
  - apply Ascii.eqb_eq in E. subst c.
    pose proof (split_not_nil sep s) as Hne.
    destruct (JS.split sep s) as [|p ps]; [now contradiction Hne|].
    cbn [JS.join] in *. now rewrite IH.
  - pose proof (split_not_nil sep s) as Hne.
    destruct (JS.split sep s) as [|p ps]; [now contradiction Hne|].
    destruct ps as [|q ps]; cbn [JS.join] in *; cbn; now rewrite IH.
Qed.

(** No part holds the separator. *)
Lemma split_parts_clean sep s :
  Forall (fun part => JS.hasChar sep part = false) (JS.split sep s).
Proof.
  induction s as [|c s IH]; cbn [JS.split].
  - now repeat constructor.
  - destruct (c =? sep)%char eqn:E.
    + constructor; [reflexivity|assumption].
    + destruct (JS.split sep s) as [|p ps]; [now repeat constructor; cbn; rewrite E|].
      inversion IH as [|? ? Hp Hps]; subst.
      constructor; [cbn; now rewrite E, Hp|assumption].
Qed.

Lemma includes_char c s : JS.includes (String c EmptyString) s = JS.hasChar c s.
Proof.
  induction s as [|c' s IH]; [reflexivity|].
  cbn [JS.includes JS.hasChar String.prefix]. rewrite IH.
  destruct (ascii_dec c c') as [->|Hne].
  - rewrite Ascii.eqb_refl. now destruct s.
  - assert (E : (c' =? c)%char = false) by (apply Ascii.eqb_neq; congruence).
    now rewrite E.
Qed.

(** A string with the separator splits in at least two parts. *)
Lemma split_two sep s :
  JS.hasChar sep s = true ->
  exists first second others, JS.split sep s = first :: second :: others.
Proof.
  induction s as [|c s IH]; cbn [JS.hasChar JS.split]; [discriminate|].
  destruct (c =? sep)%char eqn:E; cbn [orb].
  - intros _. pose proof (split_not_nil sep s) as Hne.
    destruct (JS.split sep s) as [|p ps]; [now contradiction Hne|]. eauto.
  - intros Hs. destruct (IH Hs) as (p & q & ps & ->). eauto.
Qed.

(** ** Adding an application to a stack *)

(** X19: with no build configured, an image URI with a colon is cut at
    its colons: the repository is the text before the first colon, the
    tag the text between the first and the second, whatever follows a
    second colon is dropped and the tag of the source config is ignored;
    so for [registry:5000/app:v1] the tag is [5000/app].  A URI without
    colon is kept, with the tag of the source config, or [latest] when
    that is missing or empty. *)
Theorem X19_image_uri_is_cut_at_colons (source : NewApp.StackSourceConfig)
    (templateName : option string) (uri : string) :
  NewApp.build_isEmpty source = true ->
  NewApp.image_repo_uri source = Some uri ->
  (JS.includes ":" uri = true ->
   exists repository tag rest,
     NewApp.imageSource source templateName = (Some repository, Some tag) /\
     JS.hasChar ":" repository = false /\ JS.hasChar ":" tag = false /\
     uri = repository ++ ":" ++ tag ++ rest /\
     (rest = "" \/ exists more, rest = ":" ++ more)) /\
  (JS.includes ":" uri = false ->
   NewApp.imageSource source templateName =
     (Some uri,
      if JS.truthy (NewApp.image_tag source) then NewApp.image_tag source
      else Some "latest")).
Proof.
  intros Hbuild Huri. unfold NewApp.imageSource. rewrite Hbuild, Huri. cbn [negb].
  split; intros Hcolon; rewrite Hcolon.
  - change ":" with (String ":"%char EmptyString) in Hcolon.
    rewrite includes_char in Hcolon.
    destruct (split_two _ _ Hcolon) as (p & q & ps & Hsplit).
    pose proof (join_split ":"%char uri) as Hjoin.
    pose proof (split_parts_clean ":"%char uri) as Hclean.
    rewrite Hsplit in *. cbn [nth_error].
    pose proof (Forall_inv Hclean) as Hp.
    pose proof (Forall_inv (Forall_inv_tail Hclean)) as Hq.
    cbn beta in Hp, Hq.
    exists p, q, (match ps with [] => "" | _ => String ":"%char (JS.join ":"%char ps) end).
    repeat split; try assumption.
    + rewrite <- Hjoin.
      destruct ps as [|r ps]; cbn [JS.join]; rewrite ?append_nil_r; reflexivity.
    + destruct ps; [now left|right; eexists; reflexivity].
  - cbn. now destruct (JS.truthy (NewApp.image_tag source)).
Qed.

Lemma X19_image_uri_is_cut_at_colons_witness :
  let source := NewApp.mkSource (Some "web") (Some "registry:5000/app:v1")
                  (Some "stable") true in
  NewApp.imageSource source (Some "web") = (Some "registry", Some "5000/app") /\
  exists repository tag rest,
    NewApp.imageSource source (Some "web") = (Some repository, Some tag) /\
    JS.hasChar ":" repository = false /\ JS.hasChar ":" tag = false /\
    "registry:5000/app:v1" = repository ++ ":" ++ tag ++ rest /\
    (rest = "" \/ exists more, rest = ":" ++ more).
Proof.
  intros source. split; [reflexivity|].
  exact (proj1 (X19_image_uri_is_cut_at_colons source (Some "web")
                  "registry:5000/app:v1" eq_refl eq_refl) eq_refl).
Defined.

(** X20: the ingress provider is one of aws, gcp, digitalocean, azure,
    vultr, eks or empty.  For a cluster whose service is eks, gke, doks,
    aks or vke it is decided by the service alone, whatever the server
    URL; [aws] and [gcp] come from the service only, and [eks] only from
    a server URL containing [eks] on a cluster of another service: the
    two ways of recognising the same cloud give different providers. *)
Theorem X20_ingress_provider (service server : string) :
  let provider := NewApp.ingressProvider (NewApp.mkCluster service server) in
  In provider ["aws"; "gcp"; "digitalocean"; "azure"; "vultr"; "eks"; ""] /\
  (provider = "aws" <-> service = "eks") /\
  (provider = "gcp" <-> service = "gke") /\
  (provider = "eks" <->
   ~ In service ["eks"; "gke"; "doks"; "aks"; "vke"] /\ JS.includes "eks" server = true) /\
  (In service ["eks"; "gke"; "doks"; "aks"; "vke"] ->
   forall server',
     NewApp.ingressProvider (NewApp.mkCluster service server') = provider).
Proof.
  intros provider. subst provider. unfold NewApp.ingressProvider.
  cbn [NewApp.service NewApp.server].
  destruct (String.eqb_spec service "eks") as [->|N1];
    [cbn; repeat split; intros; try discriminate; try reflexivity; auto 10;
     intuition discriminate|].
  destruct (String.eqb_spec service "gke") as [->|N2];
    [cbn; repeat split; intros; try discriminate; try reflexivity; auto 10;
     intuition discriminate|].
  destruct (String.eqb_spec service "doks") as [->|N3];
    [cbn; repeat split; intros; try discriminate; try reflexivity; auto 10;
     intuition discriminate|].
  destruct (String.eqb_spec service "aks") as [->|N4];
    [cbn; repeat split; intros; try discriminate; try reflexivity; auto 10;
     intuition discriminate|].
  destruct (String.eqb_spec service "vke") as [->|N5];
    [cbn; repeat split; intros; try discriminate; try reflexivity; auto 10;
     intuition discriminate|].
  assert (Hunknown : ~ In service ["eks"; "gke"; "doks"; "aks"; "vke"]).
  { cbn [In]. intuition congruence. }
  cbn [String.eqb].
  destruct (JS.includes "eks" server) eqn:E1;
    [|destruct (JS.includes "ondigitalocean" server);
      [|destruct (JS.includes "azmk8s" server);
        [|destruct (JS.includes "vultr" server)]]];
    (split; [cbn [In]; auto 10|]);
    (split; [split; [discriminate|congruence]|]);
    (split; [split; [discriminate|congruence]|]);
    (split; [split; [try discriminate; auto|intros [_ Hs]; try discriminate Hs; reflexivity]
            |intros Hk; now contradiction Hunknown]).
Qed.

Lemma lastSet_last {V : Type} key (v : NewApp.JsValue V) values :
  NewApp.lastSet key (values ++ [(key, v)]) = Some v.
Proof.
  induction values as [|[k w] values IH]; cbn [app NewApp.lastSet].
  - now rewrite String.eqb_refl.
  - now rewrite IH.
Qed.

Lemma lastSet_other {V : Type} key k (v : NewApp.JsValue V) values :
  k <> key ->
  NewApp.lastSet key (values ++ [(k, v)]) = NewApp.lastSet key values.
Proof.
  intros Hne. apply String.eqb_neq in Hne.
  induction values as [|[k' w] values IH]; cbn [app NewApp.lastSet].
  - now rewrite Hne.
  - now rewrite IH.
Qed.

(** X21: [handleSubmit] always puts the save button in [loading] first.
    With no source config in the stack it does nothing more, so the
    button stays in [loading]; with an empty application name it only
    reports that the name cannot be empty.  A resource is added exactly
    when there is a source config and a name; it carries that name, the
    ingress provider as the last value of [ingress.provider], and, for
    the job template, [paused] set to true last, whatever the form
    gave. *)
Theorem X21_submit_outcomes {V : Type}
    (source_configs : list NewApp.StackSourceConfig) (templateName : option string)
    (currentCluster : NewApp.Cluster) (appName template_name version : string)
    (rawValues : list (string * V)) :
  let effects := NewApp.handleSubmit source_configs templateName currentCluster
                   appName template_name version rawValues in
  hd_error effects = Some (NewApp.setSaveButtonStatus "loading") /\
  (source_configs = [] -> effects = [NewApp.setSaveButtonStatus "loading"]) /\
  (source_configs <> [] -> appName = "" ->
   effects = [NewApp.setSaveButtonStatus "loading";
              NewApp.setSaveButtonStatus "App name cannot be empty"]) /\
  (NewApp.added effects <> [] <-> source_configs <> [] /\ appName <> "") /\
  (forall r, In r (NewApp.added effects) ->
     NewApp.added effects = [r] /\
     NewApp.app_name r = appName /\
     NewApp.lastSet "ingress.provider" (NewApp.values r)
       = Some (NewApp.Str (NewApp.ingressProvider currentCluster)) /\
     (NewApp.isJob templateName = true ->
      NewApp.lastSet "paused" (NewApp.values r) = Some (NewApp.Bool true))).
Proof.
  intros effects. subst effects. unfold NewApp.handleSubmit.
  split; [reflexivity|].
  destruct source_configs as [|source others]; cbn [nth_error NewApp.DEFAULT_STACK_SOURCE_CONFIG_INDEX].
  { split; [reflexivity|]. split; [intros Hne; now contradiction Hne|].
    split; [split; [intros Hne; now contradiction Hne|intros [Hne _]; now contradiction Hne]|].
    intros r []. }
  split; [discriminate|].
  destruct (NewApp.imageSource source templateName) as [url tag].
  destruct (String.eqb_spec appName "") as [->|Hname].
  { split; [reflexivity|].
    split; [split; [intros Hne; now contradiction Hne|intros [_ Hne]; now contradiction Hne]|].
    intros r []. }
  split; [intros _ Hempty; now contradiction Hname|].
  split; [split; [intros _; split; [discriminate|assumption]|intros _; discriminate]|].
  intros r [<-|[]]. cbn [NewApp.app_name NewApp.values].
  split; [reflexivity|]. split; [reflexivity|].
  destruct (NewApp.isJob templateName); split.
  - rewrite lastSet_other by discriminate. apply lastSet_last.
  - intros _. apply lastSet_last.
  - apply lastSet_last.
  - discriminate.
Qed.

(** ** The selector *)

(** X22: the selector shows [All] for the empty value, whatever the
    options hold; for any other value it shows the label of the first
    option with that value, and nothing when no option has it. *)
Theorem X22_selector_shows_first_match (options : list Selector.Option) (v : string) :
  Selector.shown options "" = Some "All" /\
  (v <> "" ->
   (forall l, Selector.shown options v = Some l <->
      exists before o after,
        options = (before ++ o :: after)%list /\
        Selector.value o = v /\ Selector.label o = l /\
        Forall (fun o' => Selector.value o' <> v) before) /\
   (Selector.shown options v = None <->
      Forall (fun o => Selector.value o <> v) options)).
Proof.
  split; [reflexivity|]. intros Hv.
  unfold Selector.shown. apply String.eqb_neq in Hv. rewrite Hv.
  unfold Selector.getLabel.
  induction options as [|o options [IHsome IHnone]]; cbn [find].
  - split.
    + intros l. split; [discriminate|].
      intros (before & o & after & Heq & _). now destruct before.
    + split; [constructor|reflexivity].
  - destruct (String.eqb_spec (Selector.value o) v) as [Ho|Ho].
    + split.
      * intros l. split.
        -- intros Hl. injection Hl as <-.
           exists [], o, options. now repeat split.
        -- intros (before & o' & after & Heq & Hval & Hlab & Hbefore).
           destruct before as [|b before]; cbn in Heq; injection Heq as <- _.
           ++ now rewrite Hlab.
           ++ apply Forall_inv in Hbefore. now contradiction Hbefore.
      * split; [discriminate|].
        intros Hall. apply Forall_inv in Hall. now contradiction Hall.
    + split.
      * intros l. rewrite IHsome. split.
        -- intros (before & o' & after & -> & Hval & Hlab & Hbefore).
           exists (o :: before), o', after. repeat split; try assumption.
           now constructor.
        -- intros (before & o' & after & Heq & Hval & Hlab & Hbefore).
           destruct before as [|b before]; cbn in Heq; injection Heq as <- ->.
           ++ now contradiction Ho.
           ++ exists before, o', after. repeat split; try assumption.
              now apply Forall_inv_tail in Hbefore.
      * rewrite IHnone. split.
        -- intros Hall. now constructor.
        -- intros Hall. now apply Forall_inv_tail in Hall.
Qed.

Lemma X22_selector_shows_first_match_witness :
  let options := [Selector.mkOption "" "Everything"; Selector.mkOption "web" "Web";
                  Selector.mkOption "web" "Duplicate"] in
  Selector.shown options "" = Some "All" /\
  Selector.shown options "web" = Some "Web" /\
  Selector.shown options "job" = None.
Proof.
  intros options.
  destruct (X22_selector_shows_first_match options "web") as [Hall Hweb].
  destruct (X22_selector_shows_first_match options "job") as [_ Hjob].
  split; [exact Hall|]. split.
  - apply (proj1 (Hweb ltac:(discriminate))).
    exists [Selector.mkOption "" "Everything"], (Selector.mkOption "web" "Web"),
           [Selector.mkOption "web" "Duplicate"].
    repeat split. constructor; [discriminate|constructor].
  - apply (proj2 (Hjob ltac:(discriminate))).
    repeat constructor; discriminate.
Defined.

Lemma renderFrom_facts i len activeValue options :
  i + length options = len ->
  map Selector.key (Selector.renderFrom i len activeValue options)
    = seq i (length options) /\
  map Selector.lastItem (Selector.renderFrom i len activeValue options)
    = match options with
      | [] => []
      | _ => (repeat false (length options - 1) ++ [true])%list
      end.
Proof.
  revert i. induction options as [|o options IH]; intros i Hlen; cbn [length] in *.
  - now split.
  - cbn [Selector.renderFrom map Selector.key Selector.lastItem seq].
    destruct (IH (S i)) as [IHkey IHlast]; [now rewrite <- Hlen, Nat.add_succ_r|].
    rewrite IHkey, IHlast. split; [reflexivity|].
    cbn [Nat.sub]. rewrite Nat.sub_0_r.
    destruct options as [|o' options]; cbn [length repeat app] in *.
    + f_equal. apply Nat.eqb_eq. lia.
    + f_equal.
      * apply Nat.eqb_neq. lia.
      * cbn [Nat.sub]. now rewrite Nat.sub_0_r.
Qed.

Lemma renderFrom_labels i len activeValue options :
  map Selector.text (Selector.renderFrom i len activeValue options)
    = map Selector.label options /\
  map Selector.selected (Selector.renderFrom i len activeValue options)
    = map (fun o => (Selector.value o =? activeValue)%string) options.
Proof.
  revert i. induction options as [|o options IH]; intros i.
  - now split.
  - cbn [Selector.renderFrom map Selector.text Selector.selected].
    destruct (IH (S i)) as [-> ->]. now split.
Qed.

(** X23: the option list renders one entry per option, in order, keyed
    by position from 0, showing its label; an entry is marked selected
    exactly when its value is the active value, and exactly one entry,
    the final one, is marked as last. *)
Theorem X23_option_list (options : list Selector.Option) (activeValue : string) :
  let rendered := Selector.renderOptionList options activeValue in
  map Selector.text rendered = map Selector.label options /\
  map Selector.key rendered = seq 0 (length options) /\
  map Selector.selected rendered
    = map (fun o => (Selector.value o =? activeValue)%string) options /\
  map Selector.lastItem rendered
    = match options with
      | [] => []
      | _ => (repeat false (length options - 1) ++ [true])%list
      end.
Proof.
  intros rendered. subst rendered. unfold Selector.renderOptionList.
  destruct (renderFrom_facts 0 (length options) activeValue options eq_refl)
    as [Hkey Hlast].
  destruct (renderFrom_labels 0 (length options) activeValue options)
    as [Htext Hselected].
  repeat split; assumption.
Qed.
